(** * react-gift-product-detail: the query hooks of [src/hooks/queries.ts]

    A shallow embedding of the key registry, the paginated read, the order
    mutation and the optimistic wish toggle, in the two revisions of the file
    that the repository holds:
    - [Later]: [src/hooks/queries.ts], where the product page is read through
      four individual queries and the toggle rewrites the wish entry only;
    - [Prior]: the earlier revision, where the product page is one aggregate
      entry under [['productPage', productId]] that the toggle rewrites too.

    The query client is TanStack Query's; its operations are modelled by
    their documented contract on a finite map from query keys to query
    states. *)

From Stdlib Require Import ZArith String Ascii List Lia.
From stdpp Require Import base option list gmap strings fin_maps pretty.

Local Open Scope Z_scope.
Local Open Scope string_scope.

(** ** Query keys *)

(** A key segment is a string or a number ([string | number] in the source);
    a key is the array of its segments.  The client compares keys by their
    serialised form, so the number [1] and the string ["1"] differ. *)
Inductive Segment : Type :=
  | SegStr (s : string)
  | SegNum (n : Z).

#[global] Instance Segment_eq_dec : EqDecision Segment.
Proof. solve_decision. Defined.

#[global] Instance Segment_countable : Countable Segment.
Proof.
  apply (inj_countable'
           (fun g => match g with SegStr s => inl s | SegNum n => inr n end)
           (fun x => match x with inl s => SegStr s | inr n => SegNum n end)).
  intros []; reflexivity.
Defined.

Abbreviation CacheKey := (list Segment).

(** ** Cached data *)

(** Payloads the hooks pass through without looking inside them (a product,
    its detail, its reviews) are kept as opaque text. *)
Definition Payload : Type := string.

(** [ProductWish] of [@/types]. *)
Record ProductWish : Type := mkProductWish {
  wishCount : Z;
  isWished : bool
}.

(** The aggregate product page of the prior revision,
    [{ product, productDetail, reviewData, wishData }].  [product] is never
    null there (the loader throws first); [wishData] is read defensively
    ([old.wishData?.wishCount]), so it may be missing. *)
Record ProductPage : Type := mkProductPage {
  product : Payload;
  productDetail : Payload;
  reviewData : Payload;
  wishData : option ProductWish
}.

(** What a query may hold.  [DPayload None] is a cached [null]. *)
Inductive Data : Type :=
  | DWish (w : ProductWish)
  | DPage (p : ProductPage)
  | DPayload (p : option Payload).

(** JavaScript truthiness of cached data: [undefined] and [null] are falsy,
    every object is truthy. *)
Definition truthy (d : option Data) : bool :=
  match d with
  | None | Some (DPayload None) => false
  | Some _ => true
  end.

(** ** Promises and the remote API *)

(** The outcome of a remote call: the promise resolves or rejects. *)
Inductive Remote (A E : Type) : Type :=
  | Resolved (a : A)
  | Rejected (e : E).
Arguments Resolved {A E} a.
Arguments Rejected {A E} e.

(** An error as the handlers read it: [error.status] and [error.message],
    either of which may be missing. *)
Module ApiError.
Record t : Type := mk {
  status : option Z;
  message : option string
}.
End ApiError.

(** A page of the paginated theme read ([ThemeProductsResponse]). *)
Record ThemeProductsResponse : Type := mkThemeProductsResponse {
  items : list Payload;
  hasMoreList : bool
}.

(** [GiftOrderForm] of [@/types]. *)
Module GiftOrderForm.
Record Receiver : Type := mkReceiver {
  quantity : Z
}.
Record t : Type := mk {
  productId : Z;
  receivers : list Receiver;
  ordererName : string;
  message : string
}.
End GiftOrderForm.

(** The remote boundary ([@/api]), which the hooks only call. *)
Record Api : Type := mkApi {
  getThemes : Remote (list Payload) string;
  getThemeInfo : Segment -> Remote Payload string;
  getThemeProducts : Segment -> Remote (list Payload) string;
  getRankingProducts : string -> string -> Remote (list Payload) string;
  getProduct : Segment -> Remote (option Payload) string;
  getProductDetail : Segment -> Remote Payload string;
  getProductReviews : Segment -> Remote Payload string;
  getProductWish : Segment -> Remote ProductWish string;
  getThemeProductsWithPagination :
    Segment -> Z -> Z -> Remote ThemeProductsResponse string;
  createOrder : GiftOrderForm.t -> Remote Payload (option ApiError.t)
}.

(** [export const queries = { ... }]: the [key] and the [fn] of every
    family. *)
Module queries.
Module themes.
Definition key : CacheKey := [SegStr "themes"].
Definition fn (api : Api) :=
  getThemes api.
End themes.
Module themeInfo.
Definition key (themeId : Segment) : CacheKey :=
  [SegStr "themes"; themeId; SegStr "info"].
Definition fn (api : Api) (themeId : Segment) :=
  getThemeInfo api themeId.
End themeInfo.
Module themeProducts.
Definition key (themeId : Segment) : CacheKey :=
  [SegStr "themes"; themeId; SegStr "products"].
Definition fn (api : Api) (themeId : Segment) :=
  getThemeProducts api themeId.
End themeProducts.
Module rankingProducts.
Definition key (targetType rankType : string) : CacheKey :=
  [SegStr "products"; SegStr "ranking"; SegStr targetType; SegStr rankType].
Definition fn (api : Api) (targetType rankType : string) :=
  getRankingProducts api targetType rankType.
End rankingProducts.
Module product.
Definition key (productId : Segment) : CacheKey :=
  [SegStr "products"; productId].
Definition fn (api : Api) (productId : Segment) :=
  getProduct api productId.
End product.
Module productDetail.
Definition key (productId : Segment) : CacheKey :=
  [SegStr "products"; productId; SegStr "detail"].
Definition fn (api : Api) (productId : Segment) :=
  getProductDetail api productId.
End productDetail.
Module productReviews.
Definition key (productId : Segment) : CacheKey :=
  [SegStr "products"; productId; SegStr "reviews"].
Definition fn (api : Api) (productId : Segment) :=
  getProductReviews api productId.
End productReviews.
Module productWish.
Definition key (productId : Segment) : CacheKey :=
  [SegStr "products"; productId; SegStr "wish"].
Definition fn (api : Api) (productId : Segment) :=
  getProductWish api productId.
End productWish.
Module products.
Definition key : CacheKey := [SegStr "products"].
End products.
End queries.

(** The key of the paginated theme read,
    [[...queries.themeProducts.key(themeId), 'infinite']]. *)
Definition themeProductsInfinite_key (themeId : Segment) : CacheKey :=
  queries.themeProducts.key themeId ++ [SegStr "infinite"].

(** The key of the aggregate product page of the prior revision,
    [['productPage', productId]]. *)
Definition productPage_key (productId : Segment) : CacheKey :=
  [SegStr "productPage"; productId].

(** A family of the registry together with its parameters. *)
Inductive Family : Type :=
  | FThemes
  | FThemeInfo (themeId : Segment)
  | FThemeProducts (themeId : Segment)
  | FRankingProducts (targetType rankType : string)
  | FProduct (productId : Segment)
  | FProductDetail (productId : Segment)
  | FProductReviews (productId : Segment)
  | FProductWish (productId : Segment)
  | FProducts.

Definition keyOf (f : Family) : CacheKey :=
  match f with
  | FThemes => queries.themes.key
  | FThemeInfo themeId => queries.themeInfo.key themeId
  | FThemeProducts themeId => queries.themeProducts.key themeId
  | FRankingProducts targetType rankType =>
      queries.rankingProducts.key targetType rankType
  | FProduct productId => queries.product.key productId
  | FProductDetail productId => queries.productDetail.key productId
  | FProductReviews productId => queries.productReviews.key productId
  | FProductWish productId => queries.productWish.key productId
  | FProducts => queries.products.key
  end.

(** ** The query client

    The part of a query's state that the hooks can observe or change:
    its data ([undefined] is [None]), whether it was invalidated, and whether
    a fetch is in flight. *)
Record Query : Type := mkQuery {
  data : option Data;
  isInvalidated : bool;
  isFetching : bool
}.

Abbreviation QueryCache := (gmap CacheKey Query).

(** [partialMatchKey]: a filter key matches every query key it is a prefix
    of. *)
Fixpoint partialMatchKey (key filter : CacheKey) {struct filter} : bool :=
  match filter, key with
  | [], _ => true
  | _ :: _, [] => false
  | f :: filter', k :: key' =>
      if decide (f = k) then partialMatchKey key' filter' else false
  end.

(** [queryClient.getQueryData(key)]. *)
Definition getQueryData (key : CacheKey) (c : QueryCache) : option Data :=
  c !! key ≫= data.

(** [queryClient.setQueryData(key, updater)]: the updater receives the
    current data; a result of [undefined] leaves the cache as it is, any
    other result becomes the query's data (the query is created when there
    is none) and clears its invalidation.  A fetch in flight is not
    stopped. *)
Definition setQueryData (key : CacheKey)
    (updater : option Data -> option Data) (c : QueryCache) : QueryCache :=
  match updater (getQueryData key c) with
  | None => c
  | Some d =>
      <[key := {| data := Some d;
                  isInvalidated := false;
                  isFetching := from_option isFetching false (c !! key) |}]> c
  end.

(** [queryClient.setQueryData(key, value)] with a plain value. *)
Definition setQueryDataTo (key : CacheKey) (value : option Data)
    (c : QueryCache) : QueryCache :=
  setQueryData key (fun _ => value) c.

(** [queryClient.cancelQueries({ queryKey })]: the fetches of the matching
    queries are stopped; their data stays. *)
Definition cancelQueries (queryKey : CacheKey) (c : QueryCache) : QueryCache :=
  map_imap (fun key q =>
    Some (if partialMatchKey key queryKey
          then {| data := data q; isInvalidated := isInvalidated q;
                  isFetching := false |}
          else q)) c.

(** [queryClient.invalidateQueries({ queryKey })]: the matching queries are
    marked invalidated, so that their next read loads again; their data
    stays. *)
Definition invalidateQueries (queryKey : CacheKey) (c : QueryCache)
    : QueryCache :=
  map_imap (fun key q =>
    Some (if partialMatchKey key queryKey
          then {| data := data q; isInvalidated := true;
                  isFetching := isFetching q |}
          else q)) c.

(** ** Suspending reads and mutations *)

(** What a suspending read hands to the component once the load has
    settled: the data, or an error thrown to the nearest error boundary. *)
Inductive Suspended (A : Type) : Type :=
  | Returns (a : A)
  | Throws (message : string).
Arguments Returns {A} a.
Arguments Throws {A} message.

(** [useSuspenseQuery({ queryKey, queryFn })] on a key that is not cached
    yet: the component resumes with what [queryFn] resolved to, or the
    rejection is thrown. *)
Definition useSuspenseQuery {A} (queryFn : Remote A string) : Suspended A :=
  match queryFn with
  | Resolved a => Returns a
  | Rejected e => Throws e
  end.

Module Mutation.

(** The life cycle of a mutation ([useMutation]) on a state [S]: [onMutate]
    runs before the call and returns the context; then the call settles and
    exactly one of [onSuccess] and [onError] runs, followed by
    [onSettled]. *)
Record Options (S V R E C : Type) : Type := mkOptions {
  mutationFn : V -> Remote R E;
  onMutate : V -> S -> C * S;
  onSuccess : R -> V -> option C -> S -> S;
  onError : E -> V -> option C -> S -> S;
  onSettled : S -> S
}.
Arguments mkOptions {S V R E C}.
Arguments mutationFn {S V R E C}.
Arguments onMutate {S V R E C}.
Arguments onSuccess {S V R E C}.
Arguments onError {S V R E C}.
Arguments onSettled {S V R E C}.

(** The state right after the optimistic phase, before the call settles. *)
Definition beforeSettle {S V R E C} (m : Options S V R E C)
    (variables : V) (s : S) : S :=
  snd (onMutate m variables s).

(** [mutate(variables)] run to completion. *)
Definition mutate {S V R E C} (m : Options S V R E C)
    (variables : V) (s : S) : S :=
  let '(context, s) := onMutate m variables s in
  match mutationFn m variables with
  | Resolved r => onSettled m (onSuccess m r variables (Some context) s)
  | Rejected e => onSettled m (onError m e variables (Some context) s)
  end.

(** The same mutation with another remote call in place of [mutationFn]. *)
Definition withMutationFn {S V R E C} (m : Options S V R E C)
    (f : V -> Remote R E) : Options S V R E C :=
  {| mutationFn := f;
     onMutate := onMutate m;
     onSuccess := onSuccess m;
     onError := onError m;
     onSettled := onSettled m |}.

End Mutation.

(** Sequencing of awaited calls: the first rejection ends the function. *)
Definition andThen {A B E} (r : Remote A E) (k : A -> Remote B E)
    : Remote B E :=
  match r with
  | Resolved a => k a
  | Rejected e => Rejected e
  end.

(** ** The paginated theme read *)

(** The options handed to [useInfiniteQuery]. *)
Record InfiniteQueryOptions : Type := mkInfiniteQueryOptions {
  queryKey : CacheKey;
  queryFn : Z -> Remote ThemeProductsResponse string;
  getNextPageParam :
    ThemeProductsResponse -> list ThemeProductsResponse -> option Z;
  initialPageParam : Z
}.

(** [useThemeProductsInfiniteQuery(themeId, limit = 20)]; an omitted [limit]
    is [None]. *)
Definition useThemeProductsInfiniteQuery (api : Api) (themeId : Segment)
    (limit : option Z) : InfiniteQueryOptions :=
  let limit := default 20 limit in
  {| queryKey := queries.themeProducts.key themeId ++ [SegStr "infinite"];
     queryFn := fun pageParam =>
       getThemeProductsWithPagination api themeId pageParam limit;
     getNextPageParam := fun lastPage allPages =>
       let currentCursor := Z.of_nat (length allPages) * limit in
       if hasMoreList lastPage then Some currentCursor else None;
     initialPageParam := 0 |}.

(** The state of an infinite query: the pages fetched so far with the page
    parameter of each, and [calls], the page parameter of every call that
    was made to [queryFn], in order. *)
Record InfiniteData : Type := mkInfiniteData {
  pages : list ThemeProductsResponse;
  pageParams : list Z;
  calls : list Z
}.

Definition noPages : InfiniteData :=
  {| pages := []; pageParams := []; calls := [] |}.

Definition fetchPage (o : InfiniteQueryOptions) (pageParam : Z)
    (d : InfiniteData) : InfiniteData :=
  match queryFn o pageParam with
  | Resolved page =>
      {| pages := pages d ++ [page];
         pageParams := pageParams d ++ [pageParam];
         calls := calls d ++ [pageParam] |}
  | Rejected _ =>
      {| pages := pages d;
         pageParams := pageParams d;
         calls := calls d ++ [pageParam] |}
  end.

(** [fetchNextPage()]: the first page is asked for with [initialPageParam];
    afterwards [getNextPageParam] decides, and when it returns [undefined]
    there is no next page and nothing is fetched. *)
Definition fetchNextPage (o : InfiniteQueryOptions) (d : InfiniteData)
    : InfiniteData :=
  match last (pages d) with
  | None => fetchPage o (initialPageParam o) d
  | Some lastPage =>
      match getNextPageParam o lastPage (pages d) with
      | Some pageParam => fetchPage o pageParam d
      | None => d
      end
  end.

(** ** The wish toggle: its input and its result *)

Module ToggleWish.
Record Variables : Type := mkVariables {
  productId : Z;
  isWished : bool
}.
Record Result : Type := mkResult {
  success : bool
}.
End ToggleWish.

(** [a || 0] on a number that may be missing. *)
Definition orZero (a : option Z) : Z :=
  match a with
  | Some n => if decide (n = 0) then 0 else n
  | None => 0
  end.
Arguments orZero : simpl never.

(** ** Product reads and the wish toggle, revision by revision *)

(** The message of the error thrown for a missing product. *)
Definition notFound : string := "존재하지 않는 상품입니다".

(** The revision with the aggregate product page. *)
Module Prior.

(** [useSuspenseProductQuery(productId)]. *)
Definition useSuspenseProductQuery (api : Api) (productId : Segment)
    : Suspended Payload :=
  useSuspenseQuery
    (andThen (queries.product.fn api productId) (fun product =>
     match product with
     | None => Rejected notFound
     | Some product => Resolved product
     end)).

(** [useProductPageDataQuery(productId)]: the four loads are awaited
    together ([Promise.all]), then the product is checked.  Of several
    rejections the model reports the first in the order of the array. *)
Definition useProductPageDataQuery (api : Api) (productId : Segment)
    : Suspended ProductPage :=
  useSuspenseQuery
    (andThen (queries.product.fn api productId) (fun product =>
     andThen (queries.productDetail.fn api productId) (fun productDetail =>
     andThen (queries.productReviews.fn api productId) (fun reviewData =>
     andThen (queries.productWish.fn api productId) (fun wishData =>
     match product with
     | None => Rejected notFound
     | Some product =>
         Resolved {| product := product;
                     productDetail := productDetail;
                     reviewData := reviewData;
                     wishData := Some wishData |}
     end))))).

(** The context [onMutate] returns: the snapshots. *)
Record Context : Type := mkContext {
  previousWish : option Data;
  previousProductPage : option Data
}.

(** The updater of the wish entry.  The entry is declared
    [ProductWish | undefined]; data of another shape is left as it is. *)
Definition wishUpdater (isWished : bool) (old : option Data) : option Data :=
  if negb (truthy old) then
    Some (DWish {| wishCount := 0; isWished := false |})
  else
    match old with
    | Some (DWish old) =>
        Some (DWish
          {| isWished := negb isWished;
             wishCount :=
               if isWished then wishCount old - 1 else wishCount old + 1 |})
    | _ => old
    end.

(** The updater of the aggregate entry; data that is not a product page is
    left as it is. *)
Definition pageUpdater (isWished : bool) (old : option Data) : option Data :=
  if negb (truthy old) then old
  else
    match old with
    | Some (DPage old) =>
        Some (DPage
          {| product := product old;
             productDetail := productDetail old;
             reviewData := reviewData old;
             wishData := Some
               {| isWished := negb isWished;
                  wishCount :=
                    if isWished
                    then orZero (wishCount <$> wishData old) - 1
                    else orZero (wishCount <$> wishData old) + 1 |} |})
    | _ => old
    end.

Definition onMutate (variables : ToggleWish.Variables) (c : QueryCache)
    : Context * QueryCache :=
  let productId := SegNum (ToggleWish.productId variables) in
  let isWished := ToggleWish.isWished variables in
  let c := cancelQueries (queries.productWish.key productId) c in
  let c := cancelQueries (productPage_key productId) c in
  let previousWish := getQueryData (queries.productWish.key productId) c in
  let previousProductPage := getQueryData (productPage_key productId) c in
  let c :=
    setQueryData (queries.productWish.key productId) (wishUpdater isWished) c
  in
  let c := setQueryData (productPage_key productId) (pageUpdater isWished) c in
  ({| previousWish := previousWish;
      previousProductPage := previousProductPage |}, c).

Definition onError (mutationVariables : ToggleWish.Variables)
    (context : option Context) (c : QueryCache) : QueryCache :=
  let c :=
    if truthy (context ≫= previousWish) then
      let productId := SegNum (ToggleWish.productId mutationVariables) in
      setQueryDataTo (queries.productWish.key productId)
        (context ≫= previousWish) c
    else c in
  if truthy (context ≫= previousProductPage) then
    let productId := SegNum (ToggleWish.productId mutationVariables) in
    setQueryDataTo (productPage_key productId)
      (context ≫= previousProductPage) c
  else c.

(** [useToggleWishMutation()]: the remote call is a stub that resolves;
    there is no [onSuccess], and [onSettled] does nothing. *)
Definition useToggleWishMutation
    : Mutation.Options QueryCache ToggleWish.Variables ToggleWish.Result
        (option ApiError.t) Context :=
  {| Mutation.mutationFn := fun _ => Resolved {| ToggleWish.success := true |};
     Mutation.onMutate := onMutate;
     Mutation.onSuccess := fun _ _ _ c => c;
     Mutation.onError := fun _err mutationVariables context c =>
       onError mutationVariables context c;
     Mutation.onSettled := fun c => c |}.

End Prior.

(** The revision of [src/hooks/queries.ts]. *)
Module Later.

(** The value of [useProductPageDataQuery], every member of which is
    declared nullable. *)
Record PageData : Type := mkPageData {
  product : option Payload;
  productDetail : option Payload;
  reviewData : option Payload;
  wishData : option ProductWish
}.

(** [useSuspenseProductQuery(productId)]. *)
Definition useSuspenseProductQuery (api : Api) (productId : Segment)
    : Suspended (option Payload) :=
  useSuspenseQuery (queries.product.fn api productId).

(** [useProductPageDataQuery(productId)]: four queries in one
    [useSuspenseQueries]; the component resumes when all have data, and the
    first failed one throws. *)
Definition useProductPageDataQuery (api : Api) (productId : Segment)
    : Suspended PageData :=
  match useSuspenseQuery (queries.product.fn api productId),
        useSuspenseQuery (queries.productDetail.fn api productId),
        useSuspenseQuery (queries.productReviews.fn api productId),
        useSuspenseQuery (queries.productWish.fn api productId) with
  | Returns product, Returns productDetail, Returns reviewData,
    Returns wishData =>
      Returns {| product := product;
                 productDetail := Some productDetail;
                 reviewData := Some reviewData;
                 wishData := Some wishData |}
  | Throws e, _, _, _
  | _, Throws e, _, _
  | _, _, Throws e, _
  | _, _, _, Throws e => Throws e
  end.

(** The context [onMutate] returns: the snapshots. *)
Record Context : Type := mkContext {
  previousWish : option Data;
  previousProduct : option Data;
  previousProductDetail : option Data;
  previousProductReviews : option Data
}.

(** The updater of the wish entry.  The entry is declared
    [ProductWish | undefined]; data of another shape is left as it is. *)
Definition wishUpdater (isWished : bool) (old : option Data) : option Data :=
  if negb (truthy old) then
    Some (DWish {| wishCount := 0; isWished := false |})
  else
    match old with
    | Some (DWish old) =>
        Some (DWish
          {| isWished := negb isWished;
             wishCount :=
               if isWished then wishCount old - 1 else wishCount old + 1 |})
    | _ => old
    end.

Definition onMutate (variables : ToggleWish.Variables) (c : QueryCache)
    : Context * QueryCache :=
  let productId := SegNum (ToggleWish.productId variables) in
  let isWished := ToggleWish.isWished variables in
  let c := cancelQueries (queries.productWish.key productId) c in
  let c := cancelQueries (queries.product.key productId) c in
  let c := cancelQueries (queries.productDetail.key productId) c in
  let c := cancelQueries (queries.productReviews.key productId) c in
  let previousWish := getQueryData (queries.productWish.key productId) c in
  let previousProduct := getQueryData (queries.product.key productId) c in
  let previousProductDetail :=
    getQueryData (queries.productDetail.key productId) c in
  let previousProductReviews :=
    getQueryData (queries.productReviews.key productId) c in
  let c :=
    setQueryData (queries.productWish.key productId) (wishUpdater isWished) c
  in
  ({| previousWish := previousWish;
      previousProduct := previousProduct;
      previousProductDetail := previousProductDetail;
      previousProductReviews := previousProductReviews |}, c).

Definition onError (mutationVariables : ToggleWish.Variables)
    (context : option Context) (c : QueryCache) : QueryCache :=
  if truthy (context ≫= previousWish) then
    let productId := SegNum (ToggleWish.productId mutationVariables) in
    setQueryDataTo (queries.productWish.key productId)
      (context ≫= previousWish) c
  else c.

(** [useToggleWishMutation()]: the remote call is a stub that resolves;
    there is no [onSuccess], and [onSettled] does nothing. *)
Definition useToggleWishMutation
    : Mutation.Options QueryCache ToggleWish.Variables ToggleWish.Result
        (option ApiError.t) Context :=
  {| Mutation.mutationFn := fun _ => Resolved {| ToggleWish.success := true |};
     Mutation.onMutate := onMutate;
     Mutation.onSuccess := fun _ _ _ c => c;
     Mutation.onError := fun _err mutationVariables context c =>
       onError mutationVariables context c;
     Mutation.onSettled := fun c => c |}.

End Later.

(** ** The order mutation *)

(** What the handlers do to the user interface, in the order it happens:
    [alert], [toast.error], [navigate], and an exception that leaves the
    handler. *)
Inductive Event : Type :=
  | Alert (text : string)
  | ToastError (text : string)
  | Navigate (to : string)
  | Uncaught (what : string).

(** The state the order mutation acts on: the query cache, the session
    storage, the error store ([useErrorStore]), the path shown
    ([window.location.pathname]) and the interface events so far. *)
Record World : Type := mkWorld {
  cache : QueryCache;
  sessionStorage : gmap string string;
  errorStore : option string;
  pathname : string;
  events : list Event
}.

Definition withCache (f : QueryCache -> QueryCache) (w : World) : World :=
  {| cache := f (cache w); sessionStorage := sessionStorage w;
     errorStore := errorStore w; pathname := pathname w;
     events := events w |}.

Definition emit (e : Event) (w : World) : World :=
  {| cache := cache w; sessionStorage := sessionStorage w;
     errorStore := errorStore w; pathname := pathname w;
     events := events w ++ [e] |}.

(** [setError(message)] of the error store. *)
Definition setError (message : string) (w : World) : World :=
  {| cache := cache w; sessionStorage := sessionStorage w;
     errorStore := Some message; pathname := pathname w;
     events := events w |}.

(** [sessionStorage.removeItem(key)]. *)
Definition removeItem (key : string) (w : World) : World :=
  {| cache := cache w; sessionStorage := delete key (sessionStorage w);
     errorStore := errorStore w; pathname := pathname w;
     events := events w |}.

(** [encodeURIComponent] on a string held as its UTF-8 bytes: letters,
    digits and [- _ . ! ~ * ' ( )] stay, every other byte becomes [%XX]. *)
Definition isUnreserved (a : ascii) : bool :=
  let n := N_of_ascii a in
  ((65 <=? n) && (n <=? 90) || (97 <=? n) && (n <=? 122)
   || (48 <=? n) && (n <=? 57)
   || bool_decide (a ∈ list_ascii_of_string "-_.!~*'()"))%N.

Definition hexDigit (n : N) : ascii :=
  nth (N.to_nat n) (list_ascii_of_string "0123456789ABCDEF") "0"%char.

Fixpoint encodeURIComponent (s : string) : string :=
  match s with
  | EmptyString => EmptyString
  | String a s' =>
      if isUnreserved a then String a (encodeURIComponent s')
      else
        let n := N_of_ascii a in
        String "%" (String (hexDigit (n / 16)) (String (hexDigit (n mod 16))
          (encodeURIComponent s')))
  end.

(** The line feed of ['\n']. *)
Definition LF : string := String (ascii_of_nat 10) EmptyString.

(** [a || b] on a string that may be missing: the empty string is falsy. *)
Definition orElse (a : option string) (b : string) : string :=
  match a with
  | Some s => if decide (s = EmptyString) then b else s
  | None => b
  end.

Module CreateOrder.

(** [variables.receivers.reduce((sum, r) => sum + r.quantity, 0)]. *)
Definition totalQuantity (receivers : list GiftOrderForm.Receiver) : Z :=
  fold_left (fun sum r => sum + GiftOrderForm.quantity r) receivers 0.

(** The text of the confirmation. *)
Definition confirmation (variables : GiftOrderForm.t) : string :=
  "주문이 완료되었습니다."
  +:+ LF +:+ "상품명: " +:+ pretty (GiftOrderForm.productId variables)
  +:+ LF +:+ "구매 수량: "
  +:+ pretty (totalQuantity (GiftOrderForm.receivers variables))
  +:+ LF +:+ "발신자 이름: " +:+ GiftOrderForm.ordererName variables
  +:+ LF +:+ "메시지: " +:+ GiftOrderForm.message variables.

Definition onSuccess (variables : GiftOrderForm.t) (w : World) : World :=
  let w := withCache (invalidateQueries queries.products.key) w in
  let w := emit (Alert (confirmation variables)) w in
  emit (Navigate "/") w.

(** [onError]: [error?.status] reads [undefined] from a missing error, and
    [error.message] on a missing error is a [TypeError]. *)
Definition onError (error : option ApiError.t) (w : World) : World :=
  let status := error ≫= ApiError.status in
  if decide (status = Some 400) then
    emit (ToastError "받는 사람이 없습니다") w
  else if decide (status = Some 401) then
    let w := setError "로그인이 필요합니다." w in
    let w := removeItem "userInfo" w in
    let currentPath := encodeURIComponent (pathname w) in
    emit (Navigate ("/login?redirect=" +:+ currentPath)) w
  else
    match error with
    | Some error =>
        emit (ToastError
                (orElse (ApiError.message error) "주문에 실패했습니다.")) w
    | None => emit (Uncaught "TypeError") w
    end.

(** [useCreateOrderMutation()]: no optimistic phase and no [onSettled]. *)
Definition useCreateOrderMutation (api : Api)
    : Mutation.Options World GiftOrderForm.t Payload (option ApiError.t) unit :=
  {| Mutation.mutationFn := fun orderData => createOrder api orderData;
     Mutation.onMutate := fun _ w => (tt, w);
     Mutation.onSuccess := fun _data variables _ w => onSuccess variables w;
     Mutation.onError := fun error _ _ w => onError error w;
     Mutation.onSettled := fun w => w |}.

End CreateOrder.

(** ** The other suspending reads

    The remaining read hooks pass the [fn] of their family to
    [useSuspenseQuery]; they are the same in both revisions. *)

Definition useSuspenseThemesQuery (api : Api) : Suspended (list Payload) :=
  useSuspenseQuery (queries.themes.fn api).

Definition useSuspenseThemeInfoQuery (api : Api) (themeId : Segment)
    : Suspended Payload :=
  useSuspenseQuery (queries.themeInfo.fn api themeId).

Definition useSuspenseThemeProductsQuery (api : Api) (themeId : Segment)
    : Suspended (list Payload) :=
  useSuspenseQuery (queries.themeProducts.fn api themeId).

Definition useSuspenseRankingProductsQuery (api : Api)
    (targetType rankType : string) : Suspended (list Payload) :=
  useSuspenseQuery (queries.rankingProducts.fn api targetType rankType).

Definition useSuspenseProductDetailQuery (api : Api) (productId : Segment)
    : Suspended Payload :=
  useSuspenseQuery (queries.productDetail.fn api productId).

Definition useSuspenseProductReviewsQuery (api : Api) (productId : Segment)
    : Suspended Payload :=
  useSuspenseQuery (queries.productReviews.fn api productId).

Definition useSuspenseProductWishQuery (api : Api) (productId : Segment)
    : Suspended ProductWish :=
  useSuspenseQuery (queries.productWish.fn api productId).

(** ** The login mutation *)

(** [sessionStorage.setItem(key, value)]. *)
Definition setItem (key value : string) (w : World) : World :=
  {| cache := cache w; sessionStorage := <[key := value]> (sessionStorage w);
     errorStore := errorStore w; pathname := pathname w;
     events := events w |}.

(** [JSON.stringify] of a string held as its UTF-8 bytes: the double quote
    and the backslash are escaped, the control characters become their
    short escape or [\u00XX], and the result is put between double
    quotes. *)
Definition DQUOTE : ascii := ascii_of_nat 34.

Definition lowerHexDigit (n : N) : ascii :=
  nth (N.to_nat n) (list_ascii_of_string "0123456789abcdef") "0"%char.

Definition jsonEscape (a : ascii) : string :=
  let n := N_of_ascii a in
  if (n =? 34)%N then String "\" (String DQUOTE EmptyString)
  else if (n =? 92)%N then "\\"
  else if (n =? 8)%N then "\b"
  else if (n =? 12)%N then "\f"
  else if (n =? 10)%N then "\n"
  else if (n =? 13)%N then "\r"
  else if (n =? 9)%N then "\t"
  else if (n <? 32)%N then
    "\u00" +:+ String (lowerHexDigit (n / 16))
                (String (lowerHexDigit (n mod 16)) EmptyString)
  else String a EmptyString.

Fixpoint jsonEscapeAll (s : string) : string :=
  match s with
  | EmptyString => EmptyString
  | String a s' => jsonEscape a +:+ jsonEscapeAll s'
  end.

Definition jsonString (s : string) : string :=
  String DQUOTE (jsonEscapeAll s +:+ String DQUOTE EmptyString).

(** [LoginResponse] of [@/types/api], as the mutation reads it. *)
Module LoginResponse.
Record t : Type := mk {
  email : string;
  name : string;
  authToken : string
}.
End LoginResponse.

Module Login.

(** What the mutation resolves to, [{ authToken, user: { email, name } }]. *)
Record User : Type := mkUser {
  email : string;
  name : string
}.
Record Session : Type := mkSession {
  authToken : string;
  user : User
}.

(** [JSON.stringify(data)] of a session. *)
Definition stringify (data : Session) : string :=
  "{" +:+ jsonString "authToken" +:+ ":" +:+ jsonString (authToken data)
  +:+ "," +:+ jsonString "user" +:+ ":{"
  +:+ jsonString "email" +:+ ":" +:+ jsonString (email (user data))
  +:+ "," +:+ jsonString "name" +:+ ":" +:+ jsonString (name (user data))
  +:+ "}}".

(** [mutationFn]: the response of [api.authApi.login], reshaped. *)
Definition mutationFn {Credentials : Type}
    (login : Credentials -> Remote LoginResponse.t (option ApiError.t))
    (credentials : Credentials) : Remote Session (option ApiError.t) :=
  andThen (login credentials) (fun data =>
    Resolved {| authToken := LoginResponse.authToken data;
                user := {| email := LoginResponse.email data;
                           name := LoginResponse.name data |} |}).

(** [onSuccess]: the session is stored and every query is invalidated
    ([invalidateQueries()] without a filter matches every key). *)
Definition onSuccess (data : Session) (w : World) : World :=
  let w := setItem "userInfo" (stringify data) w in
  withCache (invalidateQueries []) w.

(** [useLoginMutation()]: only [mutationFn] and [onSuccess] are given. *)
Definition useLoginMutation {Credentials : Type}
    (login : Credentials -> Remote LoginResponse.t (option ApiError.t))
    : Mutation.Options World Credentials Session (option ApiError.t) unit :=
  {| Mutation.mutationFn := mutationFn login;
     Mutation.onMutate := fun _ w => (tt, w);
     Mutation.onSuccess := fun data _ _ w => onSuccess data w;
     Mutation.onError := fun _ _ _ w => w;
     Mutation.onSettled := fun w => w |}.

End Login.

(** ** Observations and sample states *)

(** The keys of a product given by its number. *)
Definition wishKeyOf (productId : Z) : CacheKey :=
  queries.productWish.key (SegNum productId).

Definition pageKeyOf (productId : Z) : CacheKey :=
  productPage_key (SegNum productId).

(** The count of the cached wish entry, and the count embedded in the cached
    aggregate page (a missing one read as 0, as the updater reads it). *)
Definition cachedWishCount (productId : Z) (c : QueryCache) : option Z :=
  match getQueryData (wishKeyOf productId) c with
  | Some (DWish w) => Some (wishCount w)
  | _ => None
  end.

Definition embeddedWishCount (productId : Z) (c : QueryCache) : option Z :=
  match getQueryData (pageKeyOf productId) c with
  | Some (DPage p) => Some (orZero (wishCount <$> wishData p))
  | _ => None
  end.

(** A cache that holds [{wishCount: 5, isWished: true}] for product 42, and
    one that holds [{wishCount: 0, isWished: false}]. *)
Definition cache54 : QueryCache :=
  {[ wishKeyOf 42 :=
       {| data := Some (DWish {| wishCount := 5; isWished := true |});
          isInvalidated := false; isFetching := false |} ]}.

Definition cache00 : QueryCache :=
  {[ wishKeyOf 42 :=
       {| data := Some (DWish {| wishCount := 0; isWished := false |});
          isInvalidated := false; isFetching := false |} ]}.

(** A remote call that fails. *)
Definition rejecting
    : ToggleWish.Variables -> Remote ToggleWish.Result (option ApiError.t) :=
  fun _ => Rejected (Some {| ApiError.status := Some 500;
                             ApiError.message := None |}).

(** A remote boundary where product 42 does not exist and every other
    load resolves; orders are turned down with the given error. *)
Definition sampleApi (orderError : option ApiError.t) : Api :=
  {| getThemes := Resolved [];
     getThemeInfo := fun _ => Resolved "info";
     getThemeProducts := fun _ => Resolved [];
     getRankingProducts := fun _ _ => Resolved [];
     getProduct := fun productId =>
       if decide (productId = SegNum 42) then Resolved None
       else Resolved (Some "product");
     getProductDetail := fun _ => Resolved "detail";
     getProductReviews := fun _ => Resolved "reviews";
     getProductWish := fun _ =>
       Resolved {| wishCount := 0; isWished := false |};
     getThemeProductsWithPagination := fun _ cursor _ =>
       Resolved {| items := []; hasMoreList := bool_decide (cursor < 40) |};
     createOrder := fun _ => Rejected orderError |}.

(** The same boundary accepting every order. *)
Definition acceptingApi : Api :=
  {| getThemes := getThemes (sampleApi None);
     getThemeInfo := getThemeInfo (sampleApi None);
     getThemeProducts := getThemeProducts (sampleApi None);
     getRankingProducts := getRankingProducts (sampleApi None);
     getProduct := getProduct (sampleApi None);
     getProductDetail := getProductDetail (sampleApi None);
     getProductReviews := getProductReviews (sampleApi None);
     getProductWish := getProductWish (sampleApi None);
     getThemeProductsWithPagination :=
       getThemeProductsWithPagination (sampleApi None);
     createOrder := fun _ => Resolved "order" |}.

(** An order for two receivers, of 2 and of 3 items. *)
Definition sampleOrder : GiftOrderForm.t :=
  {| GiftOrderForm.productId := 42;
     GiftOrderForm.receivers :=
       [ {| GiftOrderForm.quantity := 2 |};
         {| GiftOrderForm.quantity := 3 |} ];
     GiftOrderForm.ordererName := "kim";
     GiftOrderForm.message := "hello" |}.

(** A signed-in user on the order page, with the wish entry of product 42
    cached. *)
Definition sampleWorld : World :=
  {| cache := cache54;
     sessionStorage := {[ "userInfo" := "{}" ]};
     errorStore := None;
     pathname := "/order/42";
     events := [] |}.

(** The sum of the receivers' quantities. *)
Definition sumOfQuantities (receivers : list GiftOrderForm.Receiver) : Z :=
  foldr Z.add 0 (GiftOrderForm.quantity <$> receivers).

(** The offsets [0, limit, 2 * limit, ...] of the first [n] pages. *)
Definition offsets (limit : Z) (n : nat) : list Z :=
  (fun i => Z.of_nat i * limit) <$> seq 0 n.

(** A query whose fetch was stopped. *)
Definition stopped (q : Query) : Query :=
  {| data := data q; isInvalidated := isInvalidated q; isFetching := false |}.

(** A query that was marked invalidated. *)
Definition invalidated (q : Query) : Query :=
  {| data := data q; isInvalidated := true; isFetching := isFetching q |}.

(** Which families a filter made of the key of family [f] matches: the key
    of [g] starts with the key of [f].  A product whose identifier is the
    string ["ranking"] shares its prefix with the ranking lists. *)
Definition covers (f g : Family) : bool :=
  match f, g with
  | FThemes, (FThemes | FThemeInfo _ | FThemeProducts _) => true
  | FThemeInfo a, FThemeInfo b => bool_decide (a = b)
  | FThemeProducts a, FThemeProducts b => bool_decide (a = b)
  | FRankingProducts t r, FRankingProducts t' r' =>
      bool_decide (t = t') && bool_decide (r = r')
  | FProduct a,
    (FProduct b | FProductDetail b | FProductReviews b | FProductWish b) =>
      bool_decide (a = b)
  | FProduct a, FRankingProducts _ _ => bool_decide (a = SegStr "ranking")
  | FProductDetail a, FProductDetail b => bool_decide (a = b)
  | FProductReviews a, FProductReviews b => bool_decide (a = b)
  | FProductWish a, FProductWish b => bool_decide (a = b)
  | FProductDetail a, FRankingProducts t _ =>
      bool_decide (a = SegStr "ranking") && bool_decide (t = "detail")
  | FProductReviews a, FRankingProducts t _ =>
      bool_decide (a = SegStr "ranking") && bool_decide (t = "reviews")
  | FProductWish a, FRankingProducts t _ =>
      bool_decide (a = SegStr "ranking") && bool_decide (t = "wish")
  | FProducts,
    (FProducts | FRankingProducts _ _ | FProduct _ | FProductDetail _
     | FProductReviews _ | FProductWish _) => true
  | _, _ => false
  end.

(** The aggregate of the prior revision as the page data of the later
    one. *)
Definition asPageData (page : ProductPage) : Later.PageData :=
  {| Later.product := Some (product page);
     Later.productDetail := Some (productDetail page);
     Later.reviewData := Some (reviewData page);
     Later.wishData := wishData page |}.


(** A page list that ended: its last page says there is no more. *)
Definition endedPages : InfiniteData :=
  {| pages := [ {| items := []; hasMoreList := true |};
                {| items := []; hasMoreList := false |} ];
     pageParams := [0; 20];
     calls := [0; 20] |}.

(** A cache of the prior revision that holds product 42 twice: the wish
    entry and the aggregate page, with equal wish data. *)
Definition bothCopies : QueryCache :=
  <[ pageKeyOf 42 :=
       {| data := Some (DPage
            {| product := "product"; productDetail := "detail";
               reviewData := "reviews";
               wishData := Some {| wishCount := 5; isWished := true |} |});
          isInvalidated := false; isFetching := true |} ]> cache54.

(** A remote boundary whose page loads are all rejected, and a list of
    which the first page arrived before. *)
Definition failingPages : Api :=
  {| getThemes := getThemes (sampleApi None);
     getThemeInfo := getThemeInfo (sampleApi None);
     getThemeProducts := getThemeProducts (sampleApi None);
     getRankingProducts := getRankingProducts (sampleApi None);
     getProduct := getProduct (sampleApi None);
     getProductDetail := getProductDetail (sampleApi None);
     getProductReviews := getProductReviews (sampleApi None);
     getProductWish := getProductWish (sampleApi None);
     getThemeProductsWithPagination := fun _ _ _ => Rejected "offline";
     createOrder := createOrder (sampleApi None) |}.

Definition onePage : InfiniteData :=
  {| pages := [ {| items := []; hasMoreList := true |} ];
     pageParams := [0];
     calls := [0] |}.

(** * Properties *)

(** ** The query client *)

Section Client.
Implicit Types (c : QueryCache) (key filter : CacheKey).

Lemma getQueryData_cancelQueries filter c key :
  getQueryData key (cancelQueries filter c) = getQueryData key c.
Proof.
  unfold getQueryData, cancelQueries. rewrite map_lookup_imap.
  destruct (c !! key) as [q|]; simpl; [|reflexivity].
  destruct (partialMatchKey key filter); reflexivity.
Qed.


Lemma lookup_setQueryData_ne key key' updater c :
  key ≠ key' -> setQueryData key updater c !! key' = c !! key'.
Proof.
  intros Hne. unfold setQueryData.
  destruct (updater _); [|reflexivity]. by rewrite lookup_insert_ne.
Qed.

Lemma getQueryData_setQueryData_ne key key' updater c :
  key ≠ key' ->
  getQueryData key' (setQueryData key updater c) = getQueryData key' c.
Proof.
  intros Hne. unfold getQueryData. by rewrite lookup_setQueryData_ne.
Qed.

Lemma getQueryData_setQueryData key updater c :
  getQueryData key (setQueryData key updater c)
  = match updater (getQueryData key c) with
    | Some d => Some d
    | None => getQueryData key c
    end.
Proof.
  unfold setQueryData.
  destruct (updater _) as [d|]; [|reflexivity].
  unfold getQueryData at 1. by rewrite lookup_insert_eq.
Qed.

(** The state of a query after a write to it. *)
Lemma lookup_setQueryData key updater c :
  setQueryData key updater c !! key
  = match updater (getQueryData key c) with
    | Some d =>
        Some {| data := Some d; isInvalidated := false;
                isFetching := from_option isFetching false (c !! key) |}
    | None => c !! key
    end.
Proof.
  unfold setQueryData.
  destruct (updater _) as [d|]; [|reflexivity]. by rewrite lookup_insert_eq.
Qed.

Lemma lookup_cancelQueries_fetching filter c key :
  partialMatchKey key filter = true ->
  from_option isFetching false (cancelQueries filter c !! key) = false.
Proof.
  intros Hm. unfold cancelQueries. rewrite map_lookup_imap.
  destruct (c !! key) as [q|]; simpl; [|reflexivity]. by rewrite Hm.
Qed.

Lemma cancelQueries_fetching_mono filter c key :
  from_option isFetching false (c !! key) = false ->
  from_option isFetching false (cancelQueries filter c !! key) = false.
Proof.
  intros Hf. unfold cancelQueries. rewrite map_lookup_imap.
  destruct (c !! key) as [q|]; simpl in *; [|reflexivity].
  by destruct (partialMatchKey key filter).
Qed.

Lemma partialMatchKey_refl key : partialMatchKey key key = true.
Proof.
  induction key as [|g key IH]; simpl; [reflexivity|].
  by rewrite decide_True.
Qed.

(** [partialMatchKey] decides the prefix relation on keys. *)
Lemma partialMatchKey_prefix key filter :
  partialMatchKey key filter = true <-> filter `prefix_of` key.
Proof.
  revert key. induction filter as [|f filter IH]; intros key; simpl.
  - split; [intros _; apply prefix_nil | reflexivity].
  - destruct key as [|k key].
    + split; [discriminate | intros H; by apply prefix_nil_not in H].
    + destruct (decide (f = k)) as [->|Hne].
      * rewrite IH. split; [apply prefix_cons | apply prefix_cons_inv_2].
      * split; [discriminate|].
        intros H. by apply prefix_cons_inv_1 in H.
Qed.

End Client.

(** ** The wish toggle *)

(** The wish entry after the optimistic phase, in either revision. *)
Lemma Later_beforeSettle_wish variables c :
  getQueryData (wishKeyOf (ToggleWish.productId variables))
    (Mutation.beforeSettle Later.useToggleWishMutation variables c)
  = Later.wishUpdater (ToggleWish.isWished variables)
      (getQueryData (wishKeyOf (ToggleWish.productId variables)) c).
Proof.
  unfold Mutation.beforeSettle, wishKeyOf; simpl.
  rewrite getQueryData_setQueryData, !getQueryData_cancelQueries.
  destruct (Later.wishUpdater _ _) eqn:E; [reflexivity|].
  unfold Later.wishUpdater in E.
  destruct (getQueryData _ c) as [[| |[]]|]; discriminate.
Qed.

Lemma Prior_beforeSettle_wish variables c :
  getQueryData (wishKeyOf (ToggleWish.productId variables))
    (Mutation.beforeSettle Prior.useToggleWishMutation variables c)
  = Prior.wishUpdater (ToggleWish.isWished variables)
      (getQueryData (wishKeyOf (ToggleWish.productId variables)) c).
Proof.
  unfold Mutation.beforeSettle, wishKeyOf; simpl.
  rewrite getQueryData_setQueryData_ne by discriminate.
  rewrite getQueryData_setQueryData, !getQueryData_cancelQueries.
  destruct (Prior.wishUpdater _ _) eqn:E; [reflexivity|].
  unfold Prior.wishUpdater in E.
  destruct (getQueryData _ c) as [[| |[]]|]; discriminate.
Qed.

(** With the stub call, settling leaves the cache of the optimistic phase
    as it is. *)
Lemma Later_mutate_stub variables c :
  Mutation.mutate Later.useToggleWishMutation variables c
  = Mutation.beforeSettle Later.useToggleWishMutation variables c.
Proof. reflexivity. Qed.

Lemma Prior_mutate_stub variables c :
  Mutation.mutate Prior.useToggleWishMutation variables c
  = Mutation.beforeSettle Prior.useToggleWishMutation variables c.
Proof. reflexivity. Qed.

Lemma wishUpdater_same : Prior.wishUpdater = Later.wishUpdater.
Proof. reflexivity. Qed.

Lemma wishUpdater_is_Some isWished old :
  is_Some (Later.wishUpdater isWished old).
Proof.
  unfold Later.wishUpdater. destruct old as [[| |[]]|]; simpl; eauto.
Qed.

(** The aggregate entry after the optimistic phase of the prior revision. *)
Lemma Prior_beforeSettle_page variables c :
  getQueryData (pageKeyOf (ToggleWish.productId variables))
    (Mutation.beforeSettle Prior.useToggleWishMutation variables c)
  = Prior.pageUpdater (ToggleWish.isWished variables)
      (getQueryData (pageKeyOf (ToggleWish.productId variables)) c).
Proof.
  unfold Mutation.beforeSettle, pageKeyOf; simpl.
  rewrite getQueryData_setQueryData.
  rewrite getQueryData_setQueryData_ne by discriminate.
  rewrite !getQueryData_cancelQueries.
  destruct (Prior.pageUpdater _ _) eqn:E; [reflexivity|].
  unfold Prior.pageUpdater in E.
  destruct (getQueryData _ c) as [[| |[]]|]; done.
Qed.

(** The snapshots are the values the cache held before the toggle. *)
Lemma Later_snapshot variables c :
  Later.previousWish (fst (Later.onMutate variables c))
  = getQueryData (wishKeyOf (ToggleWish.productId variables)) c.
Proof. simpl. by rewrite !getQueryData_cancelQueries. Qed.

Lemma Prior_snapshot variables c :
  Prior.previousWish (fst (Prior.onMutate variables c))
  = getQueryData (wishKeyOf (ToggleWish.productId variables)) c
  /\ Prior.previousProductPage (fst (Prior.onMutate variables c))
     = getQueryData (pageKeyOf (ToggleWish.productId variables)) c.
Proof. simpl. by rewrite !getQueryData_cancelQueries. Qed.

(** Unfolds one run of a toggle whose call was rejected. *)
Ltac run_failed Hcall :=
  unfold Mutation.mutate, wishKeyOf, pageKeyOf;
  cbn [Mutation.withMutationFn Mutation.onMutate Mutation.mutationFn
       Mutation.onError Mutation.onSettled
       Later.useToggleWishMutation Prior.useToggleWishMutation];
  rewrite Hcall;
  unfold Later.onMutate, Prior.onMutate; cbn beta iota zeta;
  unfold Later.onError, Prior.onError;
  cbn [mbind option_bind Later.previousWish Prior.previousWish
       Prior.previousProductPage];
  unfold setQueryDataTo;
  rewrite ?getQueryData_cancelQueries.

Section Failure.
Context (call : ToggleWish.Variables ->
                Remote ToggleWish.Result (option ApiError.t)).
Context (variables : ToggleWish.Variables) (e : option ApiError.t).
Context (Hcall : call variables = Rejected e).

(** The later revision after a failed call: the wish entry holds the
    snapshot when the snapshot is truthy, and what the optimistic phase
    wrote otherwise. *)
Lemma Later_failed_wish c :
  getQueryData (wishKeyOf (ToggleWish.productId variables))
    (Mutation.mutate
       (Mutation.withMutationFn Later.useToggleWishMutation call) variables c)
  = if truthy (getQueryData (wishKeyOf (ToggleWish.productId variables)) c)
    then getQueryData (wishKeyOf (ToggleWish.productId variables)) c
    else Later.wishUpdater (ToggleWish.isWished variables)
           (getQueryData (wishKeyOf (ToggleWish.productId variables)) c).
Proof.
  run_failed Hcall.
  destruct (truthy _) eqn:T.
  - rewrite getQueryData_setQueryData.
    by destruct (getQueryData _ c).
  - rewrite getQueryData_setQueryData, !getQueryData_cancelQueries.
    by destruct (wishUpdater_is_Some (ToggleWish.isWished variables)
                   (getQueryData (queries.productWish.key
                      (SegNum (ToggleWish.productId variables))) c))
      as [d ->].
Qed.

Lemma Prior_failed_wish c :
  getQueryData (wishKeyOf (ToggleWish.productId variables))
    (Mutation.mutate
       (Mutation.withMutationFn Prior.useToggleWishMutation call) variables c)
  = if truthy (getQueryData (wishKeyOf (ToggleWish.productId variables)) c)
    then getQueryData (wishKeyOf (ToggleWish.productId variables)) c
    else Prior.wishUpdater (ToggleWish.isWished variables)
           (getQueryData (wishKeyOf (ToggleWish.productId variables)) c).
Proof.
  run_failed Hcall.
  set (c1 := setQueryData (productPage_key _) (Prior.pageUpdater _) _).
  assert (Hc1 : getQueryData
      (queries.productWish.key (SegNum (ToggleWish.productId variables))) c1
    = Prior.wishUpdater (ToggleWish.isWished variables)
        (getQueryData (queries.productWish.key
           (SegNum (ToggleWish.productId variables))) c)).
  { subst c1. rewrite getQueryData_setQueryData_ne by discriminate.
    rewrite getQueryData_setQueryData, !getQueryData_cancelQueries.
    rewrite wishUpdater_same.
    by destruct (wishUpdater_is_Some (ToggleWish.isWished variables)
                   (getQueryData (queries.productWish.key
                      (SegNum (ToggleWish.productId variables))) c))
      as [d ->]. }
  destruct (truthy (getQueryData (productPage_key _) c));
    [rewrite getQueryData_setQueryData_ne by discriminate|];
    (destruct (truthy _) eqn:T; [|exact Hc1]);
    rewrite getQueryData_setQueryData;
    by destruct (getQueryData _ c).
Qed.

(** The prior revision after a failed call: the aggregate entry holds its
    snapshot again, whatever it was. *)
Lemma Prior_failed_page c :
  getQueryData (pageKeyOf (ToggleWish.productId variables))
    (Mutation.mutate
       (Mutation.withMutationFn Prior.useToggleWishMutation call) variables c)
  = getQueryData (pageKeyOf (ToggleWish.productId variables)) c.
Proof.
  pose proof (Prior_beforeSettle_page variables c) as Hopt.
  unfold Mutation.beforeSettle, pageKeyOf in Hopt. simpl in Hopt.
  run_failed Hcall.
  destruct (truthy (getQueryData (productPage_key _) c)) eqn:T.
  - rewrite getQueryData_setQueryData.
    by destruct (getQueryData (productPage_key _) c).
  - destruct (truthy (getQueryData (queries.productWish.key _) c)); cbv iota;
      [rewrite getQueryData_setQueryData_ne by discriminate|];
      rewrite Hopt; unfold Prior.pageUpdater; by rewrite T.
Qed.

End Failure.

(** ** The wish toggle: the claims *)

(** C1: with an entry [{wishCount: cnt, isWished: w}] cached and the toggle
    invoked with [isWished = w], the entry reads
    [{wishCount: w ? cnt - 1 : cnt + 1, isWished: !w}] right after the
    optimistic phase, and the run with the stub call ends in the very cache
    the optimistic phase left: settling changes and invalidates nothing.
    This holds in both revisions. *)
Theorem toggle_success_path (c : QueryCache) (productId cnt : Z) (w : bool)
    (Hcached : getQueryData (wishKeyOf productId) c
               = Some (DWish {| wishCount := cnt; isWished := w |})) :
  let variables :=
    {| ToggleWish.productId := productId; ToggleWish.isWished := w |} in
  let flipped :=
    Some (DWish {| wishCount := if w then cnt - 1 else cnt + 1;
                   isWished := negb w |}) in
  (getQueryData (wishKeyOf productId)
     (Mutation.beforeSettle Later.useToggleWishMutation variables c) = flipped
   /\ Mutation.mutate Later.useToggleWishMutation variables c
      = Mutation.beforeSettle Later.useToggleWishMutation variables c)
  /\ (getQueryData (wishKeyOf productId)
        (Mutation.beforeSettle Prior.useToggleWishMutation variables c)
      = flipped
      /\ Mutation.mutate Prior.useToggleWishMutation variables c
         = Mutation.beforeSettle Prior.useToggleWishMutation variables c).
Proof.
  intros variables flipped.
  pose proof (Later_beforeSettle_wish variables c) as HL.
  pose proof (Prior_beforeSettle_wish variables c) as HP.
  simpl in HL, HP. rewrite Hcached in HL, HP.
  repeat split; assumption || reflexivity.
Qed.

Lemma toggle_success_path_witness :
  getQueryData (wishKeyOf 42)
    (Mutation.mutate Later.useToggleWishMutation
       {| ToggleWish.productId := 42; ToggleWish.isWished := true |} cache54)
  = Some (DWish {| wishCount := 4; isWished := false |}).
Proof.
  destruct (toggle_success_path cache54 42 5 true) as [[H1 H2] _].
  - vm_compute. reflexivity.
  - rewrite H2. exact H1.
Defined.

(** C10: the optimistic phases of the two revisions leave the same query
    under the wish key, whatever the cache held: the same data, written by
    the same updater, with the same flags. *)
Theorem toggle_revisions_agree (c : QueryCache)
    (variables : ToggleWish.Variables) :
  let key := wishKeyOf (ToggleWish.productId variables) in
  Mutation.beforeSettle Prior.useToggleWishMutation variables c !! key
  = Mutation.beforeSettle Later.useToggleWishMutation variables c !! key
  /\ getQueryData key
       (Mutation.beforeSettle Prior.useToggleWishMutation variables c)
     = Later.wishUpdater (ToggleWish.isWished variables) (getQueryData key c)
  /\ getQueryData key
       (Mutation.beforeSettle Later.useToggleWishMutation variables c)
     = Later.wishUpdater (ToggleWish.isWished variables) (getQueryData key c).
Proof.
  intros key. split; [|split].
  - unfold Mutation.beforeSettle, key, wishKeyOf; simpl.
    rewrite lookup_setQueryData_ne by discriminate.
    rewrite !lookup_setQueryData, !getQueryData_cancelQueries.
    rewrite wishUpdater_same.
    destruct (wishUpdater_is_Some (ToggleWish.isWished variables)
                (getQueryData (queries.productWish.key
                   (SegNum (ToggleWish.productId variables))) c))
      as [d ->].
    f_equal. f_equal.
    rewrite cancelQueries_fetching_mono.
    + symmetry. do 3 apply cancelQueries_fetching_mono.
      apply lookup_cancelQueries_fetching, partialMatchKey_refl.
    + apply lookup_cancelQueries_fetching, partialMatchKey_refl.
  - rewrite <- wishUpdater_same. apply Prior_beforeSettle_wish.
  - apply Later_beforeSettle_wish.
Qed.

(** C2, as stated, fails: with nothing cached for the product, a failed
    toggle leaves the entry the optimistic phase seeded, not the absent
    pre-toggle state. *)
Lemma rollback_of_absent_entry_counterexample :
  let variables :=
    {| ToggleWish.productId := 42; ToggleWish.isWished := false |} in
  getQueryData (wishKeyOf 42) ∅ = None
  /\ getQueryData (wishKeyOf 42)
       (Mutation.mutate
          (Mutation.withMutationFn Later.useToggleWishMutation rejecting)
          variables ∅)
     = Some (DWish {| wishCount := 0; isWished := false |})
  /\ getQueryData (wishKeyOf 42)
       (Mutation.mutate
          (Mutation.withMutationFn Prior.useToggleWishMutation rejecting)
          variables ∅)
     = Some (DWish {| wishCount := 0; isWished := false |}).
Proof. vm_compute. repeat split; reflexivity. Qed.

(** C2, amended: after a failed call the wish entry equals its pre-toggle
    value whenever an entry was cached, in both revisions; when none was
    cached the snapshot is empty, nothing is restored, and the seeded
    [{wishCount: 0, isWished: false}] stays.  The aggregate entry of the
    prior revision equals its pre-toggle value in every case, absent
    included. *)
Theorem toggle_rollback (c : QueryCache) (variables : ToggleWish.Variables)
    (call : ToggleWish.Variables ->
            Remote ToggleWish.Result (option ApiError.t))
    (e : option ApiError.t) (prior : option ProductWish)
    (Hcall : call variables = Rejected e)
    (Hprior : getQueryData (wishKeyOf (ToggleWish.productId variables)) c
              = DWish <$> prior) :
  let productId := ToggleWish.productId variables in
  let after :=
    Some (DWish (default {| wishCount := 0; isWished := false |} prior)) in
  getQueryData (wishKeyOf productId)
    (Mutation.mutate
       (Mutation.withMutationFn Later.useToggleWishMutation call) variables c)
  = after
  /\ getQueryData (wishKeyOf productId)
       (Mutation.mutate
          (Mutation.withMutationFn Prior.useToggleWishMutation call)
          variables c)
     = after
  /\ getQueryData (pageKeyOf productId)
       (Mutation.mutate
          (Mutation.withMutationFn Prior.useToggleWishMutation call)
          variables c)
     = getQueryData (pageKeyOf productId) c.
Proof.
  intros productId after. subst productId after.
  rewrite (Later_failed_wish call variables e Hcall).
  rewrite (Prior_failed_wish call variables e Hcall).
  rewrite (Prior_failed_page call variables e Hcall).
  rewrite Hprior. destruct prior as [w|]; simpl; auto.
Qed.

Lemma toggle_rollback_witness :
  getQueryData (wishKeyOf 42)
    (Mutation.mutate
       (Mutation.withMutationFn Later.useToggleWishMutation rejecting)
       {| ToggleWish.productId := 42; ToggleWish.isWished := true |} cache54)
  = Some (DWish {| wishCount := 5; isWished := true |}).
Proof.
  apply (toggle_rollback cache54
           {| ToggleWish.productId := 42; ToggleWish.isWished := true |}
           rejecting
           (Some {| ApiError.status := Some 500; ApiError.message := None |})
           (Some {| wishCount := 5; isWished := true |})).
  - reflexivity.
  - vm_compute. reflexivity.
Defined.

(** C3, as stated, fails: toggling [{isWished: false}] with nothing cached
    leaves [{wishCount: 0, isWished: false}], not
    [{wishCount: 1, isWished: true}]. *)
Lemma toggle_without_entry_counterexample :
  getQueryData (wishKeyOf 42)
    (Mutation.beforeSettle Later.useToggleWishMutation
       {| ToggleWish.productId := 42; ToggleWish.isWished := false |} ∅)
  <> Some (DWish {| wishCount := 1; isWished := true |}).
Proof. vm_compute. discriminate. Qed.

(** C3, amended: a toggle issued when no wish entry is cached leaves the
    entry [{wishCount: 0, isWished: false}] right after the optimistic
    phase, whatever the input [isWished] is: the entry is seeded and the
    flip and count rule is not applied to the seed.  Both revisions. *)
Theorem toggle_without_entry (c : QueryCache)
    (variables : ToggleWish.Variables)
    (Habsent : getQueryData (wishKeyOf (ToggleWish.productId variables)) c
               = None) :
  getQueryData (wishKeyOf (ToggleWish.productId variables))
    (Mutation.beforeSettle Later.useToggleWishMutation variables c)
  = Some (DWish {| wishCount := 0; isWished := false |})
  /\ getQueryData (wishKeyOf (ToggleWish.productId variables))
       (Mutation.beforeSettle Prior.useToggleWishMutation variables c)
     = Some (DWish {| wishCount := 0; isWished := false |}).
Proof.
  rewrite Later_beforeSettle_wish, Prior_beforeSettle_wish, Habsent.
  split; reflexivity.
Qed.

Lemma toggle_without_entry_witness :
  getQueryData (wishKeyOf 42)
    (Mutation.beforeSettle Later.useToggleWishMutation
       {| ToggleWish.productId := 42; ToggleWish.isWished := false |} ∅)
  = Some (DWish {| wishCount := 0; isWished := false |}).
Proof.
  apply (toggle_without_entry ∅
           {| ToggleWish.productId := 42; ToggleWish.isWished := false |}).
  reflexivity.
Defined.

Lemma orZero_Some n : orZero (Some n) = n.
Proof. unfold orZero. by destruct (decide (n = 0)) as [->|]. Qed.

(** C4, as stated, fails: with [{wishCount: 0, isWished: false}] cached, a
    toggle invoked with [isWished = true] decrements the count to -1. *)
Lemma toggle_negative_count_counterexample :
  cachedWishCount 42 cache00 = Some 0
  /\ cachedWishCount 42
       (Mutation.beforeSettle Later.useToggleWishMutation
          {| ToggleWish.productId := 42; ToggleWish.isWished := true |}
          cache00)
     = Some (-1).
Proof. vm_compute. split; reflexivity. Qed.

(** C4, amended: the optimistic rewrite decrements the count exactly when
    the input [isWished] is true and increments it otherwise; the cached
    [isWished] is not consulted.  So the new count is non-negative whenever
    the cached count is at least 1, or is at least 0 and the input
    [isWished] is false; with no entry cached the count is the seeded 0.
    The count embedded in the aggregate page of the prior revision follows
    the same rule, a missing one being read as 0. *)
Theorem toggle_count_rule (c : QueryCache) (variables : ToggleWish.Variables)
    (n : Z) :
  let productId := ToggleWish.productId variables in
  let step (n : Z) := if ToggleWish.isWished variables then n - 1 else n + 1 in
  (cachedWishCount productId c = Some n ->
     cachedWishCount productId
       (Mutation.beforeSettle Later.useToggleWishMutation variables c)
     = Some (step n)
     /\ cachedWishCount productId
          (Mutation.beforeSettle Prior.useToggleWishMutation variables c)
        = Some (step n))
  /\ (embeddedWishCount productId c = Some n ->
        embeddedWishCount productId
          (Mutation.beforeSettle Prior.useToggleWishMutation variables c)
        = Some (step n))
  /\ (getQueryData (wishKeyOf productId) c = None ->
        cachedWishCount productId
          (Mutation.beforeSettle Later.useToggleWishMutation variables c)
        = Some 0
        /\ cachedWishCount productId
             (Mutation.beforeSettle Prior.useToggleWishMutation variables c)
           = Some 0)
  /\ (0 <= n -> (ToggleWish.isWished variables = true -> 1 <= n) ->
      0 <= step n).
Proof.
  intros productId step. subst productId step.
  unfold cachedWishCount, embeddedWishCount.
  rewrite Later_beforeSettle_wish, Prior_beforeSettle_wish,
    Prior_beforeSettle_page.
  split; [|split; [|split]].
  - destruct (getQueryData (wishKeyOf _) c) as [[w| |]|]; try discriminate.
    intros [= <-]. simpl. by destruct (ToggleWish.isWished variables).
  - destruct (getQueryData (pageKeyOf _) c) as [[|p|]|]; try discriminate.
    intros [= <-]. simpl. rewrite orZero_Some.
    by destruct (ToggleWish.isWished variables).
  - by intros ->.
  - intros Hn Hw. destruct (ToggleWish.isWished variables); [|lia].
    specialize (Hw eq_refl). lia.
Qed.

Lemma toggle_count_rule_witness :
  cachedWishCount 42
    (Mutation.beforeSettle Later.useToggleWishMutation
       {| ToggleWish.productId := 42; ToggleWish.isWished := true |} cache54)
  = Some 4.
Proof.
  apply (toggle_count_rule cache54
           {| ToggleWish.productId := 42; ToggleWish.isWished := true |} 5).
  vm_compute. reflexivity.
Defined.

(** ** The paginated theme read *)

Section Pagination.
Context (api : Api) (themeId : Segment) (limit : Z).

Let o := useThemeProductsInfiniteQuery api themeId (Some limit).

(** The page parameters recorded so far are the offsets of the pages. *)
Lemma fetchNextPage_offsets d :
  pageParams d = offsets limit (length (pages d)) ->
  pageParams (fetchNextPage o d)
  = offsets limit (length (pages (fetchNextPage o d))).
Proof.
  intros Hinv. unfold fetchNextPage.
  destruct (last (pages d)) as [lastPage|] eqn:Hlast.
  - cbn [o useThemeProductsInfiniteQuery getNextPageParam default].
    destruct (hasMoreList lastPage); [|exact Hinv].
    unfold fetchPage. destruct (queryFn o _); simpl; [|exact Hinv].
    rewrite Hinv, length_app. simpl. unfold offsets.
    rewrite Nat.add_1_r, seq_S, fmap_app. reflexivity.
  - apply last_None in Hlast.
    unfold fetchPage. destruct (queryFn o _); simpl; [|exact Hinv].
    rewrite Hinv, Hlast. reflexivity.
Qed.

Lemma iter_fetchNextPage_offsets n :
  pageParams (Nat.iter n (fetchNextPage o) noPages)
  = offsets limit (length (pages (Nat.iter n (fetchNextPage o) noPages))).
Proof.
  induction n as [|n IH]; [reflexivity|].
  simpl. by apply fetchNextPage_offsets.
Qed.

End Pagination.

(** C5: the cursor of the next request is the number of pages fetched so
    far times [limit], whatever the pages hold, exactly when the last page
    says [hasMoreList]; when it does not, there is no next cursor and
    [fetchNextPage] makes no call and leaves the pages as they are.  In a
    run that starts with no pages the recorded page parameters are the
    offsets [0, limit, 2 * limit, ...].  An omitted [limit] is 20, and with
    [limit = 20] and three pages the next cursor is 60. *)
Theorem next_cursor_rule (api : Api) (themeId : Segment) (limit : Z)
    (lastPage : ThemeProductsResponse)
    (allPages : list ThemeProductsResponse) :
  let o := useThemeProductsInfiniteQuery api themeId (Some limit) in
  getNextPageParam o lastPage allPages
  = (if hasMoreList lastPage
     then Some (Z.of_nat (length allPages) * limit) else None)
  /\ (forall d, last (pages d) = Some lastPage ->
        hasMoreList lastPage = false -> fetchNextPage o d = d)
  /\ (forall d, last (pages d) = Some lastPage ->
        hasMoreList lastPage = true ->
        calls (fetchNextPage o d)
        = (calls d ++ [Z.of_nat (length (pages d)) * limit])%list)
  /\ (forall n,
        pageParams (Nat.iter n (fetchNextPage o) noPages)
        = offsets limit
            (length (pages (Nat.iter n (fetchNextPage o) noPages))))
  /\ useThemeProductsInfiniteQuery api themeId None
     = useThemeProductsInfiniteQuery api themeId (Some 20)
  /\ (limit = 20 -> length allPages = 3%nat ->
      hasMoreList lastPage = true ->
      getNextPageParam o lastPage allPages = Some 60).
Proof.
  intros o. split; [reflexivity|]. split; [|split; [|split; [|split]]].
  - intros d Hlast Hmore. unfold fetchNextPage. rewrite Hlast.
    cbn [o useThemeProductsInfiniteQuery getNextPageParam default].
    by rewrite Hmore.
  - intros d Hlast Hmore. unfold fetchNextPage. rewrite Hlast.
    cbn [o useThemeProductsInfiniteQuery getNextPageParam default].
    rewrite Hmore. unfold fetchPage. by destruct (queryFn _ _).
  - apply iter_fetchNextPage_offsets.
  - reflexivity.
  - intros -> Hlen Hmore.
    cbn [o useThemeProductsInfiniteQuery getNextPageParam default].
    by rewrite Hmore, Hlen.
Qed.

Lemma next_cursor_rule_witness :
  calls (Nat.iter 5
           (fetchNextPage
              (useThemeProductsInfiniteQuery (sampleApi None) (SegNum 1) None))
           noPages)
  = [0; 20; 40]
  /\ getNextPageParam
       (useThemeProductsInfiniteQuery (sampleApi None) (SegNum 1) (Some 20))
       {| items := []; hasMoreList := true |}
       (replicate 3 {| items := []; hasMoreList := true |})
     = Some 60.
Proof.
  split; [vm_compute; reflexivity|].
  apply (next_cursor_rule (sampleApi None) (SegNum 1) 20
           {| items := []; hasMoreList := true |}
           (replicate 3 {| items := []; hasMoreList := true |}));
    reflexivity.
Defined.

(** ** The order mutation *)

Lemma totalQuantity_sum receivers :
  CreateOrder.totalQuantity receivers = sumOfQuantities receivers.
Proof.
  unfold CreateOrder.totalQuantity, sumOfQuantities.
  assert (H : forall acc,
    fold_left (fun sum r => sum + GiftOrderForm.quantity r) receivers acc
    = acc + foldr Z.add 0 (GiftOrderForm.quantity <$> receivers)).
  { induction receivers as [|r receivers IH]; intros acc; simpl; [lia|].
    rewrite IH. by rewrite Z.add_assoc. }
  by rewrite H.
Qed.

Lemma lookup_invalidateQueries (filter key : CacheKey) (c : QueryCache) :
  invalidateQueries filter c !! key
  = (fun q => if partialMatchKey key filter
              then {| data := data q; isInvalidated := true;
                      isFetching := isFetching q |}
              else q) <$> c !! key.
Proof.
  unfold invalidateQueries. rewrite map_lookup_imap.
  by destruct (c !! key).
Qed.

(** The products prefix covers the ranking lists and every product read,
    and none of the theme reads. *)
Lemma products_prefix_covers (f : Family) :
  partialMatchKey (keyOf f) queries.products.key
  = match f with
    | FThemes | FThemeInfo _ | FThemeProducts _ => false
    | _ => true
    end.
Proof. by destruct f. Qed.

(** C6: a failed order creation is handled by exactly one of three
    branches, chosen by the status of the error.  Status 400: the
    "no receivers" notification and nothing else (the cache, the session
    and the error store are as before, nothing is navigated to).  Status
    401: the error store records the login message, the stored session
    ([userInfo]) is removed, and the only event is the navigation to
    [/login?redirect=] followed by the URL-encoded current path.  Any other
    status: one notification with the message of the error when it has a
    non-empty one and the fixed fallback otherwise, and nothing else. *)
Theorem order_failure_classified (api : Api) (orderData : GiftOrderForm.t)
    (error : ApiError.t) (w : World)
    (Hcall : createOrder api orderData = Rejected (Some error)) :
  let w' :=
    Mutation.mutate (CreateOrder.useCreateOrderMutation api) orderData w in
  (ApiError.status error = Some 400 ->
     w' = {| cache := cache w;
             sessionStorage := sessionStorage w;
             errorStore := errorStore w;
             pathname := pathname w;
             events := events w ++ [ToastError "받는 사람이 없습니다"] |})
  /\ (ApiError.status error = Some 401 ->
        w' = {| cache := cache w;
                sessionStorage := delete "userInfo" (sessionStorage w);
                errorStore := Some "로그인이 필요합니다.";
                pathname := pathname w;
                events := events w ++
                  [Navigate ("/login?redirect="
                             +:+ encodeURIComponent (pathname w))] |})
  /\ (ApiError.status error <> Some 400 ->
      ApiError.status error <> Some 401 ->
        w' = {| cache := cache w;
                sessionStorage := sessionStorage w;
                errorStore := errorStore w;
                pathname := pathname w;
                events := events w ++
                  [ToastError
                     (match ApiError.message error with
                      | Some m => if decide (m = EmptyString) then "주문에 실패했습니다."
                                  else m
                      | None => "주문에 실패했습니다."
                      end)] |}).
Proof.
  intros w'. subst w'. unfold Mutation.mutate.
  cbn [CreateOrder.useCreateOrderMutation Mutation.onMutate
       Mutation.mutationFn Mutation.onError Mutation.onSettled].
  rewrite Hcall. unfold CreateOrder.onError.
  cbn [mbind option_bind].
  split; [|split].
  - intros ->. reflexivity.
  - intros ->. reflexivity.
  - intros H400 H401.
    rewrite decide_False by exact H400.
    rewrite decide_False by exact H401. reflexivity.
Qed.

Lemma order_failure_classified_witness :
  Mutation.mutate
    (CreateOrder.useCreateOrderMutation
       (sampleApi (Some {| ApiError.status := Some 401;
                           ApiError.message := None |})))
    sampleOrder sampleWorld
  = {| cache := cache54;
       sessionStorage := ∅;
       errorStore := Some "로그인이 필요합니다.";
       pathname := "/order/42";
       events := [Navigate "/login?redirect=%2Forder%2F42"] |}.
Proof.
  destruct (order_failure_classified
              (sampleApi (Some {| ApiError.status := Some 401;
                                  ApiError.message := None |}))
              sampleOrder
              {| ApiError.status := Some 401; ApiError.message := None |}
              sampleWorld eq_refl) as (_ & H401 & _).
  rewrite (H401 eq_refl). vm_compute. reflexivity.
Defined.

(** An error that is [null] or [undefined] reaches the last branch, where
    reading its message is a [TypeError]. *)
Lemma order_failure_without_error w :
  CreateOrder.onError None w = emit (Uncaught "TypeError") w.
Proof. reflexivity. Qed.

(** C7: a successful order creation invalidates every cached query under
    the products prefix and no other, shows the confirmation, whose
    quantity is the sum of the receivers' quantities, and then navigates to
    the home route: the events added are the confirmation followed by one
    navigation to ["/"]. *)
Theorem order_success (api : Api) (orderData : GiftOrderForm.t)
    (result : Payload) (w : World)
    (Hcall : createOrder api orderData = Resolved result) :
  let w' :=
    Mutation.mutate (CreateOrder.useCreateOrderMutation api) orderData w in
  let total := sumOfQuantities (GiftOrderForm.receivers orderData) in
  w' = {| cache := invalidateQueries queries.products.key (cache w);
          sessionStorage := sessionStorage w;
          errorStore := errorStore w;
          pathname := pathname w;
          events := events w ++
            [Alert ("주문이 완료되었습니다."
                    +:+ LF +:+ "상품명: "
                    +:+ pretty (GiftOrderForm.productId orderData)
                    +:+ LF +:+ "구매 수량: " +:+ pretty total
                    +:+ LF +:+ "발신자 이름: "
                    +:+ GiftOrderForm.ordererName orderData
                    +:+ LF +:+ "메시지: "
                    +:+ GiftOrderForm.message orderData);
             Navigate "/"] |}
  /\ (forall key q, cache w !! key = Some q ->
        queries.products.key `prefix_of` key ->
        cache w' !! key
        = Some {| data := data q; isInvalidated := true;
                  isFetching := isFetching q |})
  /\ (forall key, ~ queries.products.key `prefix_of` key ->
        cache w' !! key = cache w !! key).
Proof.
  intros w' total. subst w' total. unfold Mutation.mutate.
  cbn [CreateOrder.useCreateOrderMutation Mutation.onMutate
       Mutation.mutationFn Mutation.onSuccess Mutation.onSettled].
  rewrite Hcall. unfold CreateOrder.onSuccess, CreateOrder.confirmation.
  rewrite totalQuantity_sum.
  split; [|split].
  - unfold emit, withCache; simpl. by rewrite <- app_assoc.
  - intros key q Hq Hpre. apply partialMatchKey_prefix in Hpre.
    unfold emit, withCache; simpl.
    by rewrite lookup_invalidateQueries, Hq, Hpre.
  - intros key Hpre. unfold emit, withCache; simpl.
    rewrite lookup_invalidateQueries.
    destruct (partialMatchKey key queries.products.key) eqn:E.
    + by apply partialMatchKey_prefix in E.
    + by destruct (cache w !! key).
Qed.

Lemma order_success_witness :
  events
    (Mutation.mutate (CreateOrder.useCreateOrderMutation acceptingApi)
       sampleOrder sampleWorld)
  = [Alert ("주문이 완료되었습니다." +:+ LF +:+ "상품명: 42"
            +:+ LF +:+ "구매 수량: 5" +:+ LF +:+ "발신자 이름: kim"
            +:+ LF +:+ "메시지: hello");
     Navigate "/"]
  /\ (isInvalidated <$>
        cache (Mutation.mutate (CreateOrder.useCreateOrderMutation acceptingApi)
                 sampleOrder sampleWorld) !! wishKeyOf 42) = Some true.
Proof.
  destruct (order_success acceptingApi sampleOrder "order" sampleWorld eq_refl)
    as (H & _ & _).
  rewrite H. vm_compute. split; reflexivity.
Defined.

(** ** Product reads *)

(** C8, as stated, fails on [src/hooks/queries.ts]: for a product the
    remote lookup resolves to [null] for, the suspending product query
    returns [null], and the product-page read returns a page whose product
    is [null]; neither throws. *)
Lemma product_null_counterexample :
  getProduct (sampleApi None) (SegNum 42) = Resolved None
  /\ Later.useSuspenseProductQuery (sampleApi None) (SegNum 42) = Returns None
  /\ Later.useProductPageDataQuery (sampleApi None) (SegNum 42)
     = Returns {| Later.product := None;
                  Later.productDetail := Some "detail";
                  Later.reviewData := Some "reviews";
                  Later.wishData :=
                    Some {| wishCount := 0; isWished := false |} |}.
Proof. vm_compute. repeat split; reflexivity. Qed.

(** C8, amended: when the remote product lookup resolves to [null], the
    reads of the prior revision fail: the suspending product query throws
    the not-found error, and the product-page read never returns a page
    and throws the not-found error when its other three loads resolve.
    The reads of [src/hooks/queries.ts] do not validate: the suspending
    product query returns [null], and the product-page read returns a page
    whose product is [null] when its other three loads resolve. *)
Theorem product_null_lookup (api : Api) (productId : Segment)
    (Hnull : getProduct api productId = Resolved None) :
  Prior.useSuspenseProductQuery api productId = Throws notFound
  /\ (forall page, Prior.useProductPageDataQuery api productId <> Returns page)
  /\ Later.useSuspenseProductQuery api productId = Returns None
  /\ (forall detail reviews wish,
        getProductDetail api productId = Resolved detail ->
        getProductReviews api productId = Resolved reviews ->
        getProductWish api productId = Resolved wish ->
        Prior.useProductPageDataQuery api productId = Throws notFound
        /\ Later.useProductPageDataQuery api productId
           = Returns {| Later.product := None;
                        Later.productDetail := Some detail;
                        Later.reviewData := Some reviews;
                        Later.wishData := Some wish |}).
Proof.
  unfold Prior.useSuspenseProductQuery, Prior.useProductPageDataQuery,
    Later.useSuspenseProductQuery, Later.useProductPageDataQuery,
    queries.product.fn, queries.productDetail.fn, queries.productReviews.fn,
    queries.productWish.fn.
  rewrite Hnull. split; [reflexivity|]. split; [|split; [reflexivity|]].
  - intros page. simpl.
    destruct (getProductDetail api productId); simpl; [|discriminate].
    destruct (getProductReviews api productId); simpl; [|discriminate].
    destruct (getProductWish api productId); simpl; discriminate.
  - intros detail reviews wish -> -> ->. split; reflexivity.
Qed.

Lemma product_null_lookup_witness :
  Prior.useSuspenseProductQuery (sampleApi None) (SegNum 42) = Throws notFound
  /\ Prior.useProductPageDataQuery (sampleApi None) (SegNum 42)
     = Throws notFound.
Proof.
  destruct (product_null_lookup (sampleApi None) (SegNum 42) eq_refl)
    as (H1 & _ & _ & H2).
  split; [exact H1|].
  exact (proj1 (H2 "detail" "reviews" {| wishCount := 0; isWished := false |}
                  eq_refl eq_refl eq_refl)).
Defined.

(** ** The key registry *)

(** The key of the paginated theme read and the key of the aggregate page
    are keys of no family of the registry. *)
Lemma other_keys_apart (f : Family) (id : Segment) :
  keyOf f <> themeProductsInfinite_key id /\ keyOf f <> productPage_key id.
Proof. by destruct f. Qed.

(** C9: the key registry is deterministic and injective: two families with
    their parameters produce equal keys exactly when they are the same family
    with the same parameters. *)
Theorem keyOf_injective (f g : Family) : keyOf f = keyOf g <-> f = g.
Proof.
  split.
  - destruct f, g; cbn; intros H; inversion H; subst; reflexivity.
  - intros ->. reflexivity.
Qed.

(** * Further properties *)

(** ** What the optimistic phase leaves alone *)

Lemma lookup_cancelQueries (filter key : CacheKey) (c : QueryCache) :
  cancelQueries filter c !! key
  = (fun q => if partialMatchKey key filter then stopped q else q)
      <$> c !! key.
Proof.
  unfold cancelQueries. rewrite map_lookup_imap. by destruct (c !! key).
Qed.



(** Unfolds the optimistic phase down to the calls on the query client. *)
Ltac open_onMutate :=
  unfold Mutation.beforeSettle;
  cbn [Mutation.onMutate Later.useToggleWishMutation
       Prior.useToggleWishMutation];
  unfold Later.onMutate, Prior.onMutate; cbn [snd fst].

Ltac on_some := cbn [fmap option_fmap option_map].





(** X3: after the optimistic phase of [src/hooks/queries.ts] no query of
    the product is fetching any more: the product, its detail, its reviews
    and its wish entry, so that no load in flight can overwrite what the
    toggle wrote; the wish entry itself is there and is not marked
    invalidated. *)
Theorem Later_toggle_stops_fetches (c : QueryCache)
    (variables : ToggleWish.Variables) :
  let c' := Mutation.beforeSettle Later.useToggleWishMutation variables c in
  (forall key q, c' !! key = Some q ->
     partialMatchKey key
       (queries.product.key (SegNum (ToggleWish.productId variables))) = true ->
     isFetching q = false)
  /\ (exists q, c' !! wishKeyOf (ToggleWish.productId variables) = Some q
                /\ isInvalidated q = false /\ is_Some (data q)).
Proof.
  intros c'. subst c'. split.
  - intros key q Hq Hm.
    destruct (decide (key = wishKeyOf (ToggleWish.productId variables)))
      as [->|Hne].
    + revert Hq. unfold wishKeyOf; open_onMutate.
      rewrite lookup_setQueryData, !getQueryData_cancelQueries.
      destruct (wishUpdater_is_Some (ToggleWish.isWished variables)
                  (getQueryData (queries.productWish.key
                     (SegNum (ToggleWish.productId variables))) c))
        as [d ->].
      intros [= <-]. simpl.
      do 3 apply cancelQueries_fetching_mono.
      apply lookup_cancelQueries_fetching, partialMatchKey_refl.
    + revert Hq. open_onMutate.
      rewrite lookup_setQueryData_ne
        by (intros E; apply Hne; by rewrite <- E).
      intros Hq.
      set (p := SegNum (ToggleWish.productId variables)) in *.
      pose proof (lookup_cancelQueries_fetching (queries.product.key p)
                    (cancelQueries (queries.productWish.key p) c) key Hm)
        as Hstop.
      apply (cancelQueries_fetching_mono (queries.productDetail.key p))
        in Hstop.
      apply (cancelQueries_fetching_mono (queries.productReviews.key p))
        in Hstop.
      by rewrite Hq in Hstop.
  - unfold wishKeyOf; open_onMutate.
    rewrite lookup_setQueryData, !getQueryData_cancelQueries.
    destruct (wishUpdater_is_Some (ToggleWish.isWished variables)
                (getQueryData (queries.productWish.key
                   (SegNum (ToggleWish.productId variables))) c))
      as [d ->].
    eexists. split; [reflexivity|]. simpl. eauto.
Qed.

(** ** Toggling twice, and the two copies of the prior revision *)

Lemma wishUpdater_twice b w :
  Later.wishUpdater (negb b) (Later.wishUpdater b (Some (DWish w)))
  = Some (DWish {| wishCount := wishCount w; isWished := b |}).
Proof. destruct b, w as [n i]; cbn; do 3 f_equal; lia. Qed.

(** X4: a toggle followed by the opposite toggle gives the count back: with
    an entry cached, the optimistic phase for [isWished = b] followed by the
    one for [isWished = !b] leaves the entry with its first count and
    [isWished = b], in both revisions; the count embedded in the aggregate
    page of the prior revision comes back too. *)
Theorem toggle_twice (c : QueryCache) (productId : Z) (b : bool)
    (w : ProductWish)
    (Hcached : getQueryData (wishKeyOf productId) c = Some (DWish w)) :
  let first :=
    {| ToggleWish.productId := productId; ToggleWish.isWished := b |} in
  let second :=
    {| ToggleWish.productId := productId; ToggleWish.isWished := negb b |} in
  let back := Some (DWish {| wishCount := wishCount w; isWished := b |}) in
  getQueryData (wishKeyOf productId)
    (Mutation.beforeSettle Later.useToggleWishMutation second
       (Mutation.beforeSettle Later.useToggleWishMutation first c)) = back
  /\ getQueryData (wishKeyOf productId)
       (Mutation.beforeSettle Prior.useToggleWishMutation second
          (Mutation.beforeSettle Prior.useToggleWishMutation first c)) = back
  /\ embeddedWishCount productId
       (Mutation.beforeSettle Prior.useToggleWishMutation second
          (Mutation.beforeSettle Prior.useToggleWishMutation first c))
     = embeddedWishCount productId c.
Proof.
  intros first second back. subst back.
  pose proof (Later_beforeSettle_wish second
                (Mutation.beforeSettle Later.useToggleWishMutation first c))
    as HL2.
  pose proof (Later_beforeSettle_wish first c) as HL1.
  pose proof (Prior_beforeSettle_wish second
                (Mutation.beforeSettle Prior.useToggleWishMutation first c))
    as HP2.
  pose proof (Prior_beforeSettle_wish first c) as HP1.
  pose proof (Prior_beforeSettle_page second
                (Mutation.beforeSettle Prior.useToggleWishMutation first c))
    as HG2.
  pose proof (Prior_beforeSettle_page first c) as HG1.
  cbn [first second ToggleWish.productId ToggleWish.isWished] in *.
  rewrite HL1, Hcached in HL2. rewrite HP1, Hcached in HP2.
  rewrite HG1 in HG2.
  split; [|split].
  - rewrite HL2. apply wishUpdater_twice.
  - rewrite HP2, wishUpdater_same. apply wishUpdater_twice.
  - unfold embeddedWishCount. rewrite HG2.
    destruct (getQueryData (pageKeyOf productId) c) as [[|p|[]]|];
      try reflexivity.
    set (n := orZero (wishCount <$> wishData p)).
    destruct b; simpl; rewrite !orZero_Some; fold n; f_equal; lia.
Qed.

Lemma toggle_twice_witness :
  getQueryData (wishKeyOf 42)
    (Mutation.beforeSettle Later.useToggleWishMutation
       {| ToggleWish.productId := 42; ToggleWish.isWished := false |}
       (Mutation.beforeSettle Later.useToggleWishMutation
          {| ToggleWish.productId := 42; ToggleWish.isWished := true |}
          cache54))
  = Some (DWish {| wishCount := 5; isWished := true |}).
Proof.
  apply (toggle_twice cache54 42 true {| wishCount := 5; isWished := true |}).
  vm_compute. reflexivity.
Defined.

(** X5: the prior revision keeps its two copies of the wish data in step:
    when the wish entry and the wish data embedded in the aggregate page
    are equal before a toggle, they are equal after its optimistic phase,
    and the rest of the page (product, detail, reviews) is as before. *)
Theorem Prior_toggle_copies_agree (c : QueryCache)
    (variables : ToggleWish.Variables) (w : ProductWish) (p : ProductPage)
    (Hwish : getQueryData (wishKeyOf (ToggleWish.productId variables)) c
             = Some (DWish w))
    (Hpage : getQueryData (pageKeyOf (ToggleWish.productId variables)) c
             = Some (DPage p))
    (Hsame : wishData p = Some w) :
  exists w',
    getQueryData (wishKeyOf (ToggleWish.productId variables))
      (Mutation.beforeSettle Prior.useToggleWishMutation variables c)
    = Some (DWish w')
    /\ getQueryData (pageKeyOf (ToggleWish.productId variables))
         (Mutation.beforeSettle Prior.useToggleWishMutation variables c)
       = Some (DPage {| product := product p;
                        productDetail := productDetail p;
                        reviewData := reviewData p;
                        wishData := Some w' |}).
Proof.
  rewrite Prior_beforeSettle_wish, Prior_beforeSettle_page, Hwish, Hpage.
  unfold Prior.wishUpdater, Prior.pageUpdater. cbn [truthy negb].
  rewrite Hsame. on_some. rewrite orZero_Some.
  eexists. split; reflexivity.
Qed.

Lemma Prior_toggle_copies_agree_witness :
  exists w',
    getQueryData (wishKeyOf 42)
      (Mutation.beforeSettle Prior.useToggleWishMutation
         {| ToggleWish.productId := 42; ToggleWish.isWished := true |}
         bothCopies)
    = Some (DWish w')
    /\ getQueryData (pageKeyOf 42)
         (Mutation.beforeSettle Prior.useToggleWishMutation
            {| ToggleWish.productId := 42; ToggleWish.isWished := true |}
            bothCopies)
       = Some (DPage {| product := "product"; productDetail := "detail";
                        reviewData := "reviews"; wishData := Some w' |}).
Proof.
  apply (Prior_toggle_copies_agree bothCopies
           {| ToggleWish.productId := 42; ToggleWish.isWished := true |}
           {| wishCount := 5; isWished := true |}
           {| product := "product"; productDetail := "detail";
              reviewData := "reviews";
              wishData := Some {| wishCount := 5; isWished := true |} |});
    vm_compute; reflexivity.
Defined.

(** X6: the prior revision never creates the aggregate page: when no page
    is cached under the page key, none is after the optimistic phase (the
    updater returns what it was given), while the wish entry is written all
    the same.  The two copies then differ in that only one exists. *)
Theorem Prior_toggle_without_page (c : QueryCache)
    (variables : ToggleWish.Variables)
    (Habsent : getQueryData (pageKeyOf (ToggleWish.productId variables)) c
               = None) :
  getQueryData (pageKeyOf (ToggleWish.productId variables))
    (Mutation.beforeSettle Prior.useToggleWishMutation variables c) = None
  /\ Mutation.beforeSettle Prior.useToggleWishMutation variables c
       !! pageKeyOf (ToggleWish.productId variables)
     = stopped <$> c !! pageKeyOf (ToggleWish.productId variables)
  /\ is_Some
       (getQueryData (wishKeyOf (ToggleWish.productId variables))
          (Mutation.beforeSettle Prior.useToggleWishMutation variables c)).
Proof.
  split; [|split].
  - by rewrite Prior_beforeSettle_page, Habsent.
  - unfold pageKeyOf in *. open_onMutate.
    rewrite lookup_setQueryData.
    rewrite getQueryData_setQueryData_ne by discriminate.
    rewrite !getQueryData_cancelQueries, Habsent.
    cbn [Prior.pageUpdater truthy negb].
    rewrite lookup_setQueryData_ne by discriminate.
    rewrite !lookup_cancelQueries, partialMatchKey_refl.
    destruct (c !! productPage_key _) as [q|]; on_some; [|reflexivity].
    by destruct (partialMatchKey _ _).
  - rewrite Prior_beforeSettle_wish, wishUpdater_same.
    apply wishUpdater_is_Some.
Qed.

Lemma Prior_toggle_without_page_witness :
  getQueryData (pageKeyOf 42)
    (Mutation.beforeSettle Prior.useToggleWishMutation
       {| ToggleWish.productId := 42; ToggleWish.isWished := true |} cache54)
  = None.
Proof.
  apply (Prior_toggle_without_page cache54
           {| ToggleWish.productId := 42; ToggleWish.isWished := true |}).
  reflexivity.
Defined.

(** ** A failed toggle *)

(** X7: a failed toggle leaves the data of every query other than the wish
    entry as it was before the toggle, in both revisions (in the prior one
    the aggregate page is among them); and when a wish entry was cached,
    the data of every query, without exception, is as before. *)
Theorem failed_toggle_restores_data (c : QueryCache)
    (variables : ToggleWish.Variables)
    (call : ToggleWish.Variables ->
            Remote ToggleWish.Result (option ApiError.t))
    (e : option ApiError.t)
    (Hcall : call variables = Rejected e) :
  let later :=
    Mutation.mutate
      (Mutation.withMutationFn Later.useToggleWishMutation call) variables c in
  let prior :=
    Mutation.mutate
      (Mutation.withMutationFn Prior.useToggleWishMutation call) variables c in
  let wishKey := wishKeyOf (ToggleWish.productId variables) in
  (forall key, key <> wishKey ->
     getQueryData key later = getQueryData key c
     /\ getQueryData key prior = getQueryData key c)
  /\ (truthy (getQueryData wishKey c) = true ->
      forall key,
        getQueryData key later = getQueryData key c
        /\ getQueryData key prior = getQueryData key c).
Proof.
  intros later prior wishKey.
  assert (Hother : forall key, key <> wishKey ->
    getQueryData key later = getQueryData key c
    /\ getQueryData key prior = getQueryData key c).
  { intros key Hkey. subst later prior wishKey.
    assert (Hne : queries.productWish.key
                    (SegNum (ToggleWish.productId variables)) <> key)
      by (intros E; apply Hkey; by rewrite <- E).
    split.
    - run_failed Hcall.
      destruct (truthy _); cbv iota;
        rewrite ?getQueryData_setQueryData_ne by exact Hne;
        by rewrite !getQueryData_cancelQueries.
    - destruct (decide (key = pageKeyOf (ToggleWish.productId variables)))
        as [->|Hpage].
      { apply (Prior_failed_page call variables e Hcall). }
      assert (Hne' : productPage_key
                       (SegNum (ToggleWish.productId variables)) <> key)
        by (intros E; apply Hpage; by rewrite <- E).
      run_failed Hcall.
      destruct (truthy (getQueryData (productPage_key _) c)),
        (truthy (getQueryData (queries.productWish.key _) c)); cbv iota;
        rewrite ?getQueryData_setQueryData_ne by (exact Hne || exact Hne');
        by rewrite !getQueryData_cancelQueries. }
  split; [exact Hother|].
  intros Htruthy key.
  destruct (decide (key = wishKey)) as [->|Hkey]; [|by apply Hother].
  subst later prior wishKey.
  rewrite (Later_failed_wish call variables e Hcall).
  rewrite (Prior_failed_wish call variables e Hcall).
  by rewrite Htruthy.
Qed.

Lemma failed_toggle_restores_data_witness :
  getQueryData (pageKeyOf 42)
    (Mutation.mutate
       (Mutation.withMutationFn Prior.useToggleWishMutation rejecting)
       {| ToggleWish.productId := 42; ToggleWish.isWished := true |}
       bothCopies)
  = getQueryData (pageKeyOf 42) bothCopies.
Proof.
  destruct (failed_toggle_restores_data bothCopies
              {| ToggleWish.productId := 42; ToggleWish.isWished := true |}
              rejecting
              (Some {| ApiError.status := Some 500;
                       ApiError.message := None |})
              eq_refl) as [_ H].
  assert (Hcached : truthy (getQueryData (wishKeyOf 42) bothCopies) = true)
    by (vm_compute; reflexivity).
  exact (proj2 (H Hcached (pageKeyOf 42))).
Defined.

(** ** The prefixes of the registry *)

(** X8: which queries a filter built from a registry key reaches.  The key
    of family [g] starts with the key of family [f] exactly in the cases
    listed by [covers]: [themes] reaches the theme reads, [products]
    reaches the ranking lists and every product read, a product reaches its
    own detail, reviews and wish entry, and every other family reaches
    itself only; except that a product whose identifier is the string
    ["ranking"] also reaches ranking lists. *)
Theorem registry_prefixes (f g : Family) :
  partialMatchKey (keyOf g) (keyOf f) = covers f g.
Proof.
  destruct f, g; cbn [keyOf covers];
    unfold queries.themes.key, queries.themeInfo.key,
      queries.themeProducts.key, queries.rankingProducts.key,
      queries.product.key, queries.productDetail.key,
      queries.productReviews.key, queries.productWish.key,
      queries.products.key;
    cbn [partialMatchKey];
    repeat (case_decide; simplify_eq; cbn [partialMatchKey]);
    repeat (case_bool_decide; simplify_eq; cbn [andb]);
    try reflexivity; try congruence.
Qed.

(** X9: a toggle of a product given by its number reaches no query of
    another product, no ranking list and no theme read: the filter
    [['products', productId]] matches none of their keys. *)
Theorem product_filter_is_local (productId : Z) (g : Family) :
  partialMatchKey (keyOf g) (queries.product.key (SegNum productId)) = true ->
  g = FProduct (SegNum productId)
  \/ g = FProductDetail (SegNum productId)
  \/ g = FProductReviews (SegNum productId)
  \/ g = FProductWish (SegNum productId).
Proof.
  destruct g; cbn [keyOf];
    unfold queries.themes.key, queries.themeInfo.key,
      queries.themeProducts.key, queries.rankingProducts.key,
      queries.product.key, queries.productDetail.key,
      queries.productReviews.key, queries.productWish.key,
      queries.products.key;
    cbn [partialMatchKey];
    repeat (case_decide; simplify_eq; cbn [partialMatchKey]);
    try discriminate; auto.
Qed.

Lemma product_filter_is_local_witness :
  FProductWish (SegNum 42) = FProduct (SegNum 42)
  \/ FProductWish (SegNum 42) = FProductDetail (SegNum 42)
  \/ FProductWish (SegNum 42) = FProductReviews (SegNum 42)
  \/ FProductWish (SegNum 42) = FProductWish (SegNum 42).
Proof.
  apply (product_filter_is_local 42 (FProductWish (SegNum 42))).
  reflexivity.
Defined.

(** ** The paginated theme read, further *)

(** X10: once a page without [hasMoreList] was fetched, the list has
    ended for good: however often [fetchNextPage] is called again, the
    pages stay as they are and no call is made. *)
Theorem pagination_stays_ended (api : Api) (themeId : Segment)
    (limit : option Z) (d : InfiniteData) (lastPage : ThemeProductsResponse)
    (n : nat)
    (Hlast : last (pages d) = Some lastPage)
    (Hended : hasMoreList lastPage = false) :
  Nat.iter n (fetchNextPage (useThemeProductsInfiniteQuery api themeId limit))
    d = d.
Proof.
  induction n as [|n IH]; [reflexivity|].
  simpl. rewrite IH. unfold fetchNextPage. rewrite Hlast.
  cbn [useThemeProductsInfiniteQuery getNextPageParam].
  by rewrite Hended.
Qed.

Lemma pagination_stays_ended_witness :
  Nat.iter 3
    (fetchNextPage
       (useThemeProductsInfiniteQuery (sampleApi None) (SegNum 1) None))
    endedPages
  = endedPages.
Proof.
  apply (pagination_stays_ended (sampleApi None) (SegNum 1) None endedPages
           {| items := []; hasMoreList := false |} 3);
    reflexivity.
Defined.

(** X11: the cursor counts the pages that arrived, not the calls that were
    made: when the load of the next page is rejected, the pages stay as they
    are, and every further [fetchNextPage] asks for the same offset
    again, so that no page is skipped. *)
Theorem pagination_retries_same_cursor (api : Api) (themeId : Segment)
    (limit : Z) (d : InfiniteData) (lastPage : ThemeProductsResponse)
    (e : string) (n : nat)
    (Hlast : last (pages d) = Some lastPage)
    (Hmore : hasMoreList lastPage = true)
    (Hfail : getThemeProductsWithPagination api themeId
               (Z.of_nat (length (pages d)) * limit) limit = Rejected e) :
  let o := useThemeProductsInfiniteQuery api themeId (Some limit) in
  pages (Nat.iter n (fetchNextPage o) d) = pages d
  /\ pageParams (Nat.iter n (fetchNextPage o) d) = pageParams d
  /\ calls (Nat.iter n (fetchNextPage o) d)
     = (calls d ++ replicate n (Z.of_nat (length (pages d)) * limit))%list.
Proof.
  intros o.
  assert (Hstep : forall d', pages d' = pages d ->
    fetchNextPage o d'
    = {| pages := pages d'; pageParams := pageParams d';
         calls := calls d' ++ [Z.of_nat (length (pages d)) * limit] |}).
  { intros d' Hd'. unfold fetchNextPage. rewrite Hd', Hlast.
    cbn [o useThemeProductsInfiniteQuery getNextPageParam default].
    rewrite Hmore. unfold fetchPage.
    cbn [o useThemeProductsInfiniteQuery queryFn default]. unfold id.
    by rewrite Hfail, Hd'. }
  induction n as [|n (IHp & IHq & IHc)].
  - simpl. by rewrite app_nil_r.
  - rewrite Nat.iter_succ, Hstep by exact IHp.
    cbn [pages pageParams calls]. rewrite IHc.
    split; [exact IHp|]. split; [exact IHq|].
    by rewrite <- app_assoc, <- replicate_S_end.
Qed.

Lemma pagination_retries_same_cursor_witness :
  calls (Nat.iter 2
           (fetchNextPage
              (useThemeProductsInfiniteQuery failingPages (SegNum 1)
                 (Some 20)))
           onePage)
  = [0; 20; 20].
Proof.
  apply (pagination_retries_same_cursor failingPages (SegNum 1) 20 onePage
           {| items := []; hasMoreList := true |} "offline" 2);
    reflexivity.
Defined.

(** ** The order mutation, further *)

Lemma sum_app (l1 l2 : list Z) :
  foldr Z.add 0 (l1 ++ l2) = foldr Z.add 0 l1 + foldr Z.add 0 l2.
Proof. induction l1 as [|x l1 IH]; simpl; [reflexivity|]. rewrite IH. lia. Qed.

Lemma sum_Permutation (l1 l2 : list Z) :
  l1 ≡ₚ l2 -> foldr Z.add 0 l1 = foldr Z.add 0 l2.
Proof.
  induction 1 as [|x l1 l2 _ IH|x y l|l1 l2 l3 _ IH1 _ IH2]; simpl; lia.
Qed.

(** X12: the quantity of the confirmation does not depend on the order of
    the receivers, adds up over a list put together from two, is 0 for an
    order without receivers, and is not negative when no quantity is. *)
Theorem totalQuantity_properties :
  CreateOrder.totalQuantity [] = 0
  /\ (forall a b,
        CreateOrder.totalQuantity (a ++ b)
        = CreateOrder.totalQuantity a + CreateOrder.totalQuantity b)
  /\ (forall a b, a ≡ₚ b ->
        CreateOrder.totalQuantity a = CreateOrder.totalQuantity b)
  /\ (forall a, Forall (fun r => 0 <= GiftOrderForm.quantity r) a ->
        0 <= CreateOrder.totalQuantity a).
Proof.
  split; [reflexivity|]. split; [|split].
  - intros a b. rewrite !totalQuantity_sum. unfold sumOfQuantities.
    by rewrite fmap_app, sum_app.
  - intros a b Hperm. rewrite !totalQuantity_sum. unfold sumOfQuantities.
    apply sum_Permutation. by apply fmap_Permutation.
  - intros a Hall. rewrite totalQuantity_sum. unfold sumOfQuantities.
    induction Hall as [|r a Hr _ IH]; [reflexivity|].
    rewrite fmap_cons. simpl. lia.
Qed.

(** X13: an error that is [null] or [undefined] is not classified: reading
    its status yields [undefined], so the last branch is taken, where
    reading its message raises a [TypeError] before anything is shown; the
    user gets no notification and is not navigated anywhere. *)
Theorem order_failure_without_error_object (api : Api)
    (orderData : GiftOrderForm.t) (w : World)
    (Hcall : createOrder api orderData = Rejected None) :
  Mutation.mutate (CreateOrder.useCreateOrderMutation api) orderData w
  = {| cache := cache w;
       sessionStorage := sessionStorage w;
       errorStore := errorStore w;
       pathname := pathname w;
       events := events w ++ [Uncaught "TypeError"] |}.
Proof.
  unfold Mutation.mutate.
  cbn [CreateOrder.useCreateOrderMutation Mutation.onMutate
       Mutation.mutationFn Mutation.onError Mutation.onSettled].
  by rewrite Hcall.
Qed.

Lemma order_failure_without_error_object_witness :
  events
    (Mutation.mutate (CreateOrder.useCreateOrderMutation (sampleApi None))
       sampleOrder sampleWorld)
  = [Uncaught "TypeError"].
Proof.
  rewrite (order_failure_without_error_object (sampleApi None) sampleOrder
             sampleWorld eq_refl).
  reflexivity.
Defined.

(** *** The redirect of the 401 branch *)

Lemma hexDigit_unreserved (n : N) :
  (n < 16)%N -> isUnreserved (hexDigit n) = true.
Proof.
  intros Hn.
  assert (H : Forall (fun a => isUnreserved a = true)
                (list_ascii_of_string "0123456789ABCDEF"))
    by (repeat constructor).
  rewrite Forall_forall in H. apply H. unfold hexDigit.
  apply list_elem_of_In, nth_In. simpl. lia.
Qed.

Lemma encodeURIComponent_safe (s : string) (a : ascii) :
  In a (list_ascii_of_string (encodeURIComponent s)) ->
  isUnreserved a = true \/ a = "%"%char.
Proof.
  induction s as [|b s IH]; simpl; [tauto|].
  destruct (isUnreserved b) eqn:Eb; simpl.
  - intros [<-|H]; [by left | by apply IH].
  - pose proof (N_ascii_bounded b) as Hb.
    intros [<-|[<-|[<-|H]]]; [by right | left | left | by apply IH].
    + apply hexDigit_unreserved. apply N.Div0.div_lt_upper_bound. lia.
    + apply hexDigit_unreserved. apply N.mod_lt. lia.
Qed.

Lemma hexDigit_inj (m n : N) :
  (m < 16)%N -> (n < 16)%N -> hexDigit m = hexDigit n -> m = n.
Proof.
  intros Hm Hn H. unfold hexDigit in H.
  assert (Hnd : List.NoDup (list_ascii_of_string "0123456789ABCDEF")).
  { apply NoDup_ListNoDup. apply (bool_decide_unpack _). by vm_compute. }
  apply N2Nat.inj.
  eapply (proj1 (List.NoDup_nth _ "0"%char) Hnd); simpl; try lia.
  exact H.
Qed.

Lemma percent_reserved : isUnreserved "%"%char = false.
Proof. reflexivity. Qed.

Lemma encodeURIComponent_inj (s t : string) :
  encodeURIComponent s = encodeURIComponent t -> s = t.
Proof.
  revert t. induction s as [|a s IH]; intros [|b t]; simpl.
  - reflexivity.
  - destruct (isUnreserved b); discriminate.
  - destruct (isUnreserved a); discriminate.
  - pose proof (N_ascii_bounded a) as Ha.
    pose proof (N_ascii_bounded b) as Hb.
    destruct (isUnreserved a) eqn:Ea, (isUnreserved b) eqn:Eb.
    + intros [= -> H]. f_equal. by apply IH.
    + intros [= -> _]. by rewrite percent_reserved in Ea.
    + intros [= <- _]. by rewrite percent_reserved in Eb.
    + intros [= H1 H2 H]. f_equal; [|by apply IH].
      apply hexDigit_inj in H1;
        [|apply N.Div0.div_lt_upper_bound; lia..].
      apply hexDigit_inj in H2; [|apply N.mod_lt; lia..].
      rewrite <- (ascii_N_embedding a), <- (ascii_N_embedding b).
      f_equal.
      rewrite (N.div_mod (N_of_ascii a) 16), (N.div_mod (N_of_ascii b) 16)
        by lia.
      by rewrite H1, H2.
Qed.

(** X14: the login redirect of the 401 branch carries the current path
    safely and without loss: the value after [redirect=] holds only
    letters, digits, [- _ . ! ~ * ' ( )] and [%], so no [&], [=], [?], [#]
    or [/] of the path can end the parameter or start another one; and two
    different paths never give the same target. *)
Theorem order_401_redirect (error : ApiError.t) (w : World)
    (H401 : ApiError.status error = Some 401) :
  let target (w : World) :=
    "/login?redirect=" +:+ encodeURIComponent (pathname w) in
  events (CreateOrder.onError (Some error) w)
  = (events w ++ [Navigate (target w)])%list
  /\ (forall a, In a (list_ascii_of_string (encodeURIComponent (pathname w)))
        -> ~ In a (list_ascii_of_string "&=?#/ +"))
  /\ (forall w', target w = target w' -> pathname w = pathname w').
Proof.
  intros target. subst target. split; [|split].
  - unfold CreateOrder.onError. cbn [mbind option_bind]. by rewrite H401.
  - intros a Ha Hbad. apply encodeURIComponent_safe in Ha.
    simpl in Hbad.
    destruct Hbad as [<-|[<-|[<-|[<-|[<-|[<-|[<-|[]]]]]]]];
      by destruct Ha as [Ha|Ha].
  - intros w' [= H]. by apply encodeURIComponent_inj.
Qed.

Lemma order_401_redirect_witness :
  events
    (CreateOrder.onError
       (Some {| ApiError.status := Some 401; ApiError.message := None |})
       sampleWorld)
  = [Navigate "/login?redirect=%2Forder%2F42"].
Proof.
  destruct (order_401_redirect
              {| ApiError.status := Some 401; ApiError.message := None |}
              sampleWorld eq_refl) as [H _].
  rewrite H. reflexivity.
Defined.

(** ** The login mutation *)

Lemma partialMatchKey_nil (key : CacheKey) : partialMatchKey key [] = true.
Proof. reflexivity. Qed.




(** ** The paginated query and the invalidations *)

(** X17: the paginated theme read is cached under a key of its own that
    starts with the key of the theme's product list.  So a filter on the
    products of the same theme reaches it and one on another theme does
    not; a successful order, which invalidates the products prefix, leaves
    it as it is; a successful login marks it invalidated. *)
Theorem paginated_query_reach (api : Api) (themeId themeId' : Segment)
    (limit : option Z) :
  let key := queryKey (useThemeProductsInfiniteQuery api themeId limit) in
  (forall f, keyOf f <> key)
  /\ partialMatchKey key (queries.themeProducts.key themeId')
     = bool_decide (themeId' = themeId)
  /\ (forall orderData result w,
        createOrder api orderData = Resolved result ->
        cache (Mutation.mutate (CreateOrder.useCreateOrderMutation api)
                 orderData w) !! key
        = cache w !! key)
  /\ (forall (login : string ->
                      Remote LoginResponse.t (option ApiError.t))
             credentials data w,
        login credentials = Resolved data ->
        cache (Mutation.mutate (Login.useLoginMutation login) credentials w)
          !! key
        = invalidated <$> cache w !! key).
Proof.
  intros key. subst key.
  cbn [useThemeProductsInfiniteQuery queryKey].
  unfold queries.themeProducts.key. cbn [app].
  split; [|split; [|split]].
  - by intros [].
  - cbn [partialMatchKey]. rewrite decide_True by reflexivity.
    case_decide; case_bool_decide; try congruence.
    by rewrite decide_True.
  - intros orderData result w Hcall. unfold Mutation.mutate.
    cbn [CreateOrder.useCreateOrderMutation Mutation.onMutate
         Mutation.mutationFn Mutation.onSuccess Mutation.onSettled].
    rewrite Hcall. unfold CreateOrder.onSuccess, emit, withCache.
    cbn [cache]. rewrite lookup_invalidateQueries.
    unfold queries.products.key. cbn [partialMatchKey].
    rewrite decide_False by discriminate.
    by destruct (cache w !! _).
  - intros login credentials data w Hlogin. unfold Mutation.mutate.
    cbn [Login.useLoginMutation Mutation.onMutate Mutation.mutationFn
         Mutation.onSuccess Mutation.onSettled].
    unfold Login.mutationFn. rewrite Hlogin. cbn [andThen].
    unfold Login.onSuccess, withCache, setItem. cbn [cache].
    rewrite lookup_invalidateQueries.
    by destruct (cache w !! _).
Qed.

(** ** The product reads of the two revisions *)

(** X18: the two revisions read the same product: the suspending product
    query of the prior revision returns a product exactly when the one of
    [src/hooks/queries.ts] returns that product, and it throws whenever the
    later one throws; they part only on a lookup that resolves to [null],
    which the prior revision throws as not found and the later one
    returns. *)
Theorem product_queries_agree (api : Api) (productId : Segment) :
  (forall p,
     Prior.useSuspenseProductQuery api productId = Returns p
     <-> Later.useSuspenseProductQuery api productId = Returns (Some p))
  /\ (forall e,
        Later.useSuspenseProductQuery api productId = Throws e ->
        Prior.useSuspenseProductQuery api productId = Throws e)
  /\ (Later.useSuspenseProductQuery api productId = Returns None <->
      getProduct api productId = Resolved None)
  /\ (forall e,
        Prior.useSuspenseProductQuery api productId = Throws e ->
        getProduct api productId = Rejected e
        \/ (getProduct api productId = Resolved None /\ e = notFound)).
Proof.
  unfold Prior.useSuspenseProductQuery, Later.useSuspenseProductQuery,
    queries.product.fn.
  destruct (getProduct api productId) as [[p'|]|e']; simpl;
    (split; [|split; [|split]]).
  - intros p. split; intros [= ->]; reflexivity.
  - discriminate.
  - split; discriminate.
  - discriminate.
  - intros p. split; discriminate.
  - discriminate.
  - split; reflexivity.
  - intros e [= <-]. by right.
  - intros p. split; discriminate.
  - intros e [= <-]. reflexivity.
  - split; discriminate.
  - intros e [= <-]. by left.
Qed.

(** X19: the product-page reads of the two revisions return the same page:
    the aggregate read of the prior revision returns a page exactly when
    the four-query read of [src/hooks/queries.ts] returns that page with a
    product that is not [null]; and whenever the later read returns a page
    whose product is [null], the prior one throws the not-found error. *)
Theorem page_reads_agree (api : Api) (productId : Segment) :
  (forall page,
     Prior.useProductPageDataQuery api productId = Returns page
     <-> Later.useProductPageDataQuery api productId
         = Returns (asPageData page))
  /\ (forall page,
        Later.useProductPageDataQuery api productId = Returns page ->
        Later.product page = None ->
        Prior.useProductPageDataQuery api productId = Throws notFound)
  /\ (forall e,
        Later.useProductPageDataQuery api productId = Throws e ->
        exists e', Prior.useProductPageDataQuery api productId = Throws e').
Proof.
  unfold Prior.useProductPageDataQuery, Later.useProductPageDataQuery,
    queries.product.fn, queries.productDetail.fn, queries.productReviews.fn,
    queries.productWish.fn, asPageData.
  destruct (getProduct api productId) as [[p|]|e1],
    (getProductDetail api productId) as [d|e2],
    (getProductReviews api productId) as [r|e3],
    (getProductWish api productId) as [w|e4]; simpl;
    (split; [|split]);
    try (intros [] ; split; intros [=]; subst; reflexivity);
    try (intros page [= <-]; simpl; done);
    try (intros page; discriminate);
    try (intros e [=]; eauto);
    try (intros e; discriminate).
Qed.

(** X20: in [src/hooks/queries.ts] the page read and the single reads
    cannot disagree: the page read returns exactly when the four single
    reads of the product return, and its members are their values. *)
Theorem Later_page_is_the_single_reads (api : Api) (productId : Segment)
    (page : Later.PageData) :
  Later.useProductPageDataQuery api productId = Returns page
  <-> exists detail reviews wish,
        Later.useSuspenseProductQuery api productId
        = Returns (Later.product page)
        /\ useSuspenseProductDetailQuery api productId = Returns detail
        /\ useSuspenseProductReviewsQuery api productId = Returns reviews
        /\ useSuspenseProductWishQuery api productId = Returns wish
        /\ Later.productDetail page = Some detail
        /\ Later.reviewData page = Some reviews
        /\ Later.wishData page = Some wish.
Proof.
  unfold Later.useProductPageDataQuery, Later.useSuspenseProductQuery,
    useSuspenseProductDetailQuery, useSuspenseProductReviewsQuery,
    useSuspenseProductWishQuery.
  destruct (useSuspenseQuery (queries.product.fn api productId)) as [p|e1],
    (useSuspenseQuery (queries.productDetail.fn api productId)) as [d|e2],
    (useSuspenseQuery (queries.productReviews.fn api productId)) as [r|e3],
    (useSuspenseQuery (queries.productWish.fn api productId)) as [w|e4];
    (split; [intros [= <-]; simpl; eauto 10
            | intros (d' & r' & w' & H1 & H2 & H3 & H4 & H5 & H6 & H7);
              try discriminate]).
  destruct page as [pp pd pr pw]; simpl in *.
  by simplify_eq.
Qed.

(** ** Where the two revisions of the toggle differ *)

Lemma Later_beforeSettle_other variables c key :
  key <> wishKeyOf (ToggleWish.productId variables) ->
  getQueryData key
    (Mutation.beforeSettle Later.useToggleWishMutation variables c)
  = getQueryData key c.
Proof.
  intros Hkey. open_onMutate.
  rewrite getQueryData_setQueryData_ne
    by (intros E; apply Hkey; by rewrite <- E).
  by rewrite !getQueryData_cancelQueries.
Qed.

Lemma Prior_beforeSettle_other variables c key :
  key <> wishKeyOf (ToggleWish.productId variables) ->
  key <> pageKeyOf (ToggleWish.productId variables) ->
  getQueryData key
    (Mutation.beforeSettle Prior.useToggleWishMutation variables c)
  = getQueryData key c.
Proof.
  intros Hwish Hpage. open_onMutate.
  rewrite getQueryData_setQueryData_ne
    by (intros E; apply Hpage; by rewrite <- E).
  rewrite getQueryData_setQueryData_ne
    by (intros E; apply Hwish; by rewrite <- E).
  by rewrite !getQueryData_cancelQueries.
Qed.

(** X21: the data the two revisions leave after the optimistic phase
    differ at one key only, the aggregate page: under every other key the
    prior revision and [src/hooks/queries.ts] leave the same data, whatever
    the cache held; and the later revision leaves the aggregate page, if
    one is cached, as it was. *)
Theorem toggle_revisions_differ_at_page_only (c : QueryCache)
    (variables : ToggleWish.Variables) (key : CacheKey)
    (Hkey : key <> pageKeyOf (ToggleWish.productId variables)) :
  getQueryData key
    (Mutation.beforeSettle Prior.useToggleWishMutation variables c)
  = getQueryData key
      (Mutation.beforeSettle Later.useToggleWishMutation variables c)
  /\ getQueryData (pageKeyOf (ToggleWish.productId variables))
       (Mutation.beforeSettle Later.useToggleWishMutation variables c)
     = getQueryData (pageKeyOf (ToggleWish.productId variables)) c.
Proof.
  split.
  - destruct (decide (key = wishKeyOf (ToggleWish.productId variables)))
      as [->|Hwish].
    + by rewrite Prior_beforeSettle_wish, Later_beforeSettle_wish,
        wishUpdater_same.
    + by rewrite Prior_beforeSettle_other, Later_beforeSettle_other.
  - by apply Later_beforeSettle_other.
Qed.

Lemma toggle_revisions_differ_at_page_only_witness :
  getQueryData (wishKeyOf 42)
    (Mutation.beforeSettle Prior.useToggleWishMutation
       {| ToggleWish.productId := 42; ToggleWish.isWished := true |}
       bothCopies)
  = getQueryData (wishKeyOf 42)
      (Mutation.beforeSettle Later.useToggleWishMutation
         {| ToggleWish.productId := 42; ToggleWish.isWished := true |}
         bothCopies).
Proof.
  apply (toggle_revisions_differ_at_page_only bothCopies
           {| ToggleWish.productId := 42; ToggleWish.isWished := true |}
           (wishKeyOf 42)).
  discriminate.
Defined.
